(** * nightly-dashboard: a shallow embedding of [render.py]

    [render.py] polls the GitLab REST API for the pipelines of one project,
    sorts the jobs of the latest pipeline by status, builds a run chart from
    the test reports of the last fifty pipelines, lists the skipped tests of
    the latest run and renders all of it through a template into
    [render/rendered.html].

    The script is dynamically typed and works on decoded JSON, so the
    embedding has three layers:
    - the values the script handles (decoded JSON, binary64 floats) and the
      handful of interpreter operations it applies to them, each returning
      the exception the interpreter would raise;
    - the library calls ([requests], [urllib.parse.quote], [datetime],
      [random], [logging], the template engine), as functions over an
      explicit world;
    - the script itself, function by function, in the order of the source.

    Three things stay outside: a [str] that is not well-formed Unicode (a
    lone surrogate), what [requests] does with the arguments of a call
    before an answer comes back, and a failure of [open] or of the write
    of the output file. *)

From Stdlib Require Import ZArith String Ascii List DecimalString.
From Stdlib Require Import Floats.SpecFloat.
From stdpp Require Import base option list gmap strings.

Local Open Scope string_scope.
Local Open Scope list_scope.
Local Open Scope Z_scope.

(** ** Exceptions and results *)

(** The exception classes that the script can let escape. *)
Inductive exn : Type :=
  | HTTPError
  | ConnectionError
  | InvalidHeader
  | JSONDecodeError
  | IndexError
  | KeyError
  | TypeError
  | AttributeError
  | ValueError
  | ZeroDivisionError
  | OverflowError
  | TemplateError.

Inductive result (A : Type) : Type :=
  | Ok (a : A)
  | Err (e : exn).
Arguments Ok {A} a.
Arguments Err {A} e.

Definition rbind {A B} (r : result A) (k : A -> result B) : result B :=
  match r with
  | Ok a => k a
  | Err e => Err e
  end.

Notation "'let?' x ':=' r 'in' k" := (rbind r (fun x => k))
  (at level 10, x pattern, r at level 100, k at level 200).

(** A comprehension or a loop without effects over a list: stops at the
    first element that raises. *)
Fixpoint rmap {A B} (f : A -> result B) (l : list A) : result (list B) :=
  match l with
  | [] => Ok []
  | x :: l' =>
      let? y := f x in
      let? ys := rmap f l' in
      Ok (y :: ys)
  end.

(** ** Values *)

(** Decoded JSON, as [json.loads] produces it: [None], [bool], [int],
    [float], [str], [list] and [dict] with string keys.  A [str] is kept as
    its UTF-8 encoding, so only well-formed text is represented. *)
#[warnings="-register-all"]
Inductive json : Type :=
  | JNull
  | JBool (b : bool)
  | JInt (n : Z)
  | JFloat (x : spec_float)
  | JStr (s : string)
  | JArr (l : list json)
  | JObj (o : gmap string json).

(** *** binary64 arithmetic *)

Definition prec : Z := 53.
Definition emax : Z := 1024.

(** [float(n)] for an [int]: the nearest double, ties to even, and
    [OverflowError] when that is out of range. *)
Definition float_of_int (n : Z) : result spec_float :=
  match binary_normalize prec emax n 0 false with
  | S754_infinity _ => Err OverflowError
  | x => Ok x
  end.

(** [a / b] on two [int]s: the correctly rounded quotient. *)
Definition int_true_divide (a b : Z) : result spec_float :=
  match b with
  | 0 => Err ZeroDivisionError
  | _ =>
      match a with
      | 0 => Ok (S754_zero (b <? 0))
      | _ =>
          match SFdiv prec emax
                  (S754_finite (a <? 0) (Z.to_pos (Z.abs a)) 0)
                  (S754_finite (b <? 0) (Z.to_pos (Z.abs b)) 0) with
          | S754_infinity _ => Err OverflowError
          | x => Ok x
          end
      end
  end.

Definition float_is_zero (x : spec_float) : bool :=
  match x with
  | S754_zero _ => true
  | _ => false
  end.

Inductive number : Type :=
  | NInt (n : Z)
  | NFloat (x : spec_float).

(** The numeric types among the JSON values; [bool] is a subclass of
    [int]. *)
Definition as_number (v : json) : option number :=
  match v with
  | JBool b => Some (NInt (Z.b2z b))
  | JInt n => Some (NInt n)
  | JFloat x => Some (NFloat x)
  | _ => None
  end.

Definition to_float (n : number) : result spec_float :=
  match n with
  | NInt z => float_of_int z
  | NFloat x => Ok x
  end.

(** [a / b]. *)
Definition py_truediv (a b : json) : result spec_float :=
  match as_number a, as_number b with
  | Some (NInt x), Some (NInt y) => int_true_divide x y
  | Some x, Some y =>
      let? fx := to_float x in
      let? fy := to_float y in
      if float_is_zero fy then Err ZeroDivisionError
      else Ok (SFdiv prec emax fx fy)
  | _, _ => Err TypeError
  end.

(** [x * n] for a [float] and an [int]. *)
Definition py_mul_float_int (x : spec_float) (n : Z) : result spec_float :=
  let? fn := float_of_int n in
  Ok (SFmul prec emax x fn).

(** *** Text *)

Definition Z_to_string (n : Z) : string :=
  NilZero.string_of_int (Z.to_int n).

Definition ascii_code (c : ascii) : Z := Z.of_N (N_of_ascii c).

(** The code points of a [str], read off its UTF-8 encoding: a byte
    [10xxxxxx] continues the character before it. *)
Definition is_continuation (c : ascii) : bool :=
  (128 <=? ascii_code c) && (ascii_code c <? 192).

Fixpoint utf8_chars (s : string) : list string :=
  match s with
  | EmptyString => []
  | String c s' =>
      let chs := utf8_chars s' in
      match s' with
      | String c' _ =>
          if is_continuation c' then
            match chs with
            | ch :: chs' => String c ch :: chs'
            | [] => [String c ""]
            end
          else String c "" :: chs
      | EmptyString => String c "" :: chs
      end
  end.

Fixpoint str_concat (l : list string) : string :=
  match l with
  | [] => ""
  | s :: l' => s +:+ str_concat l'
  end.

(** [s.replace(old, new)] for a one-character [old]. *)
Fixpoint str_replace_char (old : ascii) (new : string) (s : string) : string :=
  match s with
  | EmptyString => ""
  | String c s' =>
      if Ascii.eqb c old then new +:+ str_replace_char old new s'
      else String c (str_replace_char old new s')
  end.

(** *** Interpreter operations on JSON values *)

(** [bool(v)]. *)
Definition py_truthy (v : json) : bool :=
  match v with
  | JNull => false
  | JBool b => b
  | JInt n => negb (n =? 0)
  | JFloat x => negb (float_is_zero x)
  | JStr s => negb (String.eqb s "")
  | JArr l => negb (Nat.eqb (List.length l) 0)
  | JObj o => negb (Nat.eqb (size o) 0)
  end.

(** [v == s] for a string literal [s]. *)
Definition py_eq_str (v : json) (s : string) : bool :=
  match v with
  | JStr t => String.eqb t s
  | _ => false
  end.

(** [v[k]] for a string key. *)
Definition py_getitem_key (v : json) (k : string) : result json :=
  match v with
  | JObj o =>
      match o !! k with
      | Some x => Ok x
      | None => Err KeyError
      end
  | _ => Err TypeError
  end.

(** [v[0]]. *)
Definition py_getitem_0 (v : json) : result json :=
  match v with
  | JArr l =>
      match l with
      | x :: _ => Ok x
      | [] => Err IndexError
      end
  | JStr s =>
      match utf8_chars s with
      | c :: _ => Ok (JStr c)
      | [] => Err IndexError
      end
  | JObj _ => Err KeyError
  | _ => Err TypeError
  end.

(** [v[:n]]. *)
Definition py_slice_to (v : json) (n : nat) : result json :=
  match v with
  | JArr l => Ok (JArr (take n l))
  | JStr s => Ok (JStr (str_concat (take n (utf8_chars s))))
  | _ => Err TypeError
  end.

(** The elements that [for x in v] visits; a [dict] yields its keys. *)
Definition py_iter (v : json) : result (list json) :=
  match v with
  | JArr l => Ok l
  | JStr s => Ok (JStr <$> utf8_chars s)
  | JObj o => Ok ((fun kv => JStr (fst kv)) <$> map_to_list o)
  | _ => Err TypeError
  end.

(** [v.replace(old, new)]: only [str] has the method. *)
Definition py_replace (v : json) (old : ascii) (new : string) : result string :=
  match v with
  | JStr s => Ok (str_replace_char old new s)
  | _ => Err AttributeError
  end.

(** [l[-1]] on a list. *)
Definition py_last {A} (l : list A) : result A :=
  match last l with
  | Some x => Ok x
  | None => Err IndexError
  end.

(** ** Library functions *)

(** *** [format(x, ".2f")] *)

(** [n / d] rounded to the nearest integer, ties to even ([0 <= n],
    [0 < d]). *)
Definition div_round_half_even (n d : Z) : Z :=
  let q := n / d in
  match Z.compare (2 * (n mod d)) d with
  | Lt => q
  | Eq => if Z.even q then q else q + 1
  | Gt => q + 1
  end.

(** The value [m * 2^e] in hundredths, rounded once from the exact binary
    value. *)
Definition hundredths (m : positive) (e : Z) : Z :=
  if 0 <=? e then Z.pos m * 2 ^ e * 100
  else div_round_half_even (Z.pos m * 100) (2 ^ (- e)).

Definition sign_str (s : bool) : string := if s then "-" else "".

Definition pad2 (n : Z) : string :=
  if n <? 10 then "0" +:+ Z_to_string n else Z_to_string n.

Definition format_2f (x : spec_float) : string :=
  match x with
  | S754_nan => "nan"
  | S754_infinity s => sign_str s +:+ "inf"
  | S754_zero s => sign_str s +:+ "0.00"
  | S754_finite s m e =>
      let n := hundredths m e in
      sign_str s +:+ Z_to_string (n / 100) +:+ "." +:+ pad2 (n mod 100)
  end.

(** *** [urllib.parse.quote] *)

Definition is_upper (c : ascii) : bool := (65 <=? ascii_code c) && (ascii_code c <=? 90).
Definition is_lower (c : ascii) : bool := (97 <=? ascii_code c) && (ascii_code c <=? 122).
Definition is_digit (c : ascii) : bool := (48 <=? ascii_code c) && (ascii_code c <=? 57).

(** The bytes [quote] never escapes: letters, digits and [_.-~]; and its
    default [safe="/"]. *)
Definition always_safe (c : ascii) : bool :=
  is_upper c || is_lower c || is_digit c
  || Ascii.eqb c "_" || Ascii.eqb c "." || Ascii.eqb c "-" || Ascii.eqb c "~".

Definition quote_safe (c : ascii) : bool := always_safe c || Ascii.eqb c "/".

Definition hex_digit (n : Z) : ascii :=
  if n <? 10 then ascii_of_N (Z.to_N (48 + n))
  else ascii_of_N (Z.to_N (55 + n)).

Definition quote_byte (c : ascii) : string :=
  if quote_safe c then String c ""
  else String "%" (String (hex_digit (ascii_code c / 16))
                     (String (hex_digit (ascii_code c mod 16)) "")).

Fixpoint quote_str (s : string) : string :=
  match s with
  | EmptyString => ""
  | String c s' => quote_byte c +:+ quote_str s'
  end.

(** [quote(v)]: a [str] is encoded to UTF-8 and escaped byte by byte;
    anything that is neither [str] nor [bytes] is a [TypeError].  A [str]
    is held here as its UTF-8 bytes, so it is well-formed Unicode: a
    [str] with a lone surrogate, which [quote] refuses with a
    [UnicodeEncodeError], has no counterpart in [json]. *)
Definition quote (v : json) : result string :=
  match v with
  | JStr s => Ok (quote_str s)
  | _ => Err TypeError
  end.

(** Percent-decoding, the inverse that a reader of the URL applies. *)
Definition hex_value (c : ascii) : option Z :=
  if is_digit c then Some (ascii_code c - 48)
  else if (65 <=? ascii_code c) && (ascii_code c <=? 70) then Some (ascii_code c - 55)
  else if (97 <=? ascii_code c) && (ascii_code c <=? 102) then Some (ascii_code c - 87)
  else None.

Fixpoint unquote_str (s : string) : string :=
  match s with
  | EmptyString => ""
  | String c s' =>
      match s' with
      | String h (String l rest) =>
          match Ascii.eqb c "%", hex_value h, hex_value l with
          | true, Some a, Some b =>
              String (ascii_of_N (Z.to_N (16 * a + b))) (unquote_str rest)
          | _, _, _ => String c (unquote_str s')
          end
      | _ => String c (unquote_str s')
      end
  end.

(** *** [datetime] *)

Record datetime : Type := {
  year : Z;
  month : Z;
  day : Z;
  hour : Z;
  minute : Z;
  second : Z;
  microsecond : Z;
  utcoffset : option Z  (* minutes east of UTC; [None] for a naive value *)
}.

Definition digit_value (c : ascii) : option Z :=
  if is_digit c then Some (ascii_code c - 48) else None.

(** Reads exactly [n] decimal digits. *)
Fixpoint parse_digits (n : nat) (acc : Z) (s : string) : option (Z * string) :=
  match n with
  | O => Some (acc, s)
  | S n' =>
      match s with
      | String c s' =>
          d ← digit_value c;
          parse_digits n' (10 * acc + d) s'
      | EmptyString => None
      end
  end.

Definition expect (c : ascii) (s : string) : option string :=
  match s with
  | String c' s' => if Ascii.eqb c c' then Some s' else None
  | EmptyString => None
  end.

Definition is_leap (y : Z) : bool :=
  (y mod 4 =? 0) && (negb (y mod 100 =? 0) || (y mod 400 =? 0)).

Definition days_in_month (y m : Z) : Z :=
  if m =? 2 then (if is_leap y then 29 else 28)
  else if (m =? 4) || (m =? 6) || (m =? 9) || (m =? 11) then 30
  else 31.

(** An optional fraction [.fff] or [.ffffff], in microseconds. *)
Definition parse_fraction (s : string) : option (Z * string) :=
  match s with
  | String "." s' =>
      match parse_digits 6 0 s' with
      | Some r => Some r
      | None =>
          '(ms, rest) ← parse_digits 3 0 s';
          Some (1000 * ms, rest)
      end
  | _ => Some (0, s)
  end.

(** An optional offset [+HH:MM] or [-HH:MM] that ends the string. *)
Definition parse_offset (s : string) : option (option Z) :=
  match s with
  | EmptyString => Some None
  | String c s' =>
      sgn ← (if Ascii.eqb c "+" then Some 1
             else if Ascii.eqb c "-" then Some (-1) else None);
      '(h, s1) ← parse_digits 2 0 s';
      s2 ← expect ":" s1;
      '(m, s3) ← parse_digits 2 0 s2;
      if String.eqb s3 "" && (h <? 24) && (m <? 60)
      then Some (Some (sgn * (60 * h + m))) else None
  end.

(** [YYYY-MM-DD], then [T] or a space, then [HH:MM:SS], an optional
    fraction of three or six digits and an optional offset, every field in
    range and the year from 1000 on. *)
Definition parse_isoformat (s : string) : option datetime :=
  '(y, s) ← parse_digits 4 0 s;
  s ← expect "-" s;
  '(mo, s) ← parse_digits 2 0 s;
  s ← expect "-" s;
  '(d, s) ← parse_digits 2 0 s;
  s ← (match s with
       | String c s' =>
           if Ascii.eqb c "T" || Ascii.eqb c " " then Some s' else None
       | EmptyString => None
       end);
  '(h, s) ← parse_digits 2 0 s;
  s ← expect ":" s;
  '(mi, s) ← parse_digits 2 0 s;
  s ← expect ":" s;
  '(se, s) ← parse_digits 2 0 s;
  '(us, s) ← parse_fraction s;
  off ← parse_offset s;
  if (1000 <=? y) && (1 <=? mo) && (mo <=? 12) && (1 <=? d)
     && (d <=? days_in_month y mo) && (h <? 24) && (mi <? 60) && (se <? 60)
  then Some {| year := y; month := mo; day := d; hour := h; minute := mi;
               second := se; microsecond := us; utcoffset := off |}
  else None.

Definition month_name (m : Z) : string :=
  nth (Z.to_nat (m - 1))
    ["January"; "February"; "March"; "April"; "May"; "June"; "July";
     "August"; "September"; "October"; "November"; "December"] "".

(** One [strftime] directive, in the C locale. *)
Definition strftime_directive (c : ascii) (d : datetime) : string :=
  if Ascii.eqb c "B" then month_name (month d)
  else if Ascii.eqb c "d" then pad2 (day d)
  else if Ascii.eqb c "Y" then Z_to_string (year d)
  else if Ascii.eqb c "I" then
    pad2 (if hour d mod 12 =? 0 then 12 else hour d mod 12)
  else if Ascii.eqb c "M" then pad2 (minute d)
  else if Ascii.eqb c "p" then (if hour d <? 12 then "AM" else "PM")
  else if Ascii.eqb c "%" then "%"
  else String "%" (String c "").

(** [d.strftime(fmt)] for the directives [%B %d %Y %I %M %p %%]; other
    directives are not interpreted. *)
Fixpoint strftime (fmt : string) (d : datetime) : string :=
  match fmt with
  | EmptyString => ""
  | String c fmt' =>
      if Ascii.eqb c "%" then
        match fmt' with
        | String k fmt'' => strftime_directive k d +:+ strftime fmt'' d
        | EmptyString => "%"
        end
      else String c (strftime fmt' d)
  end.

(** [sep.join(l)]. *)
Fixpoint str_join (sep : string) (l : list string) : string :=
  match l with
  | [] => ""
  | [s] => s
  | s :: l' => s +:+ sep +:+ str_join sep l'
  end.

(** ** The world of one run *)

Record request : Type := {
  req_url : string;
  req_authorization : string
}.

(** What the script reads of a response: the status code and the decoded
    body, [None] when the body is not JSON. *)
Record response : Type := {
  status_code : Z;
  body : option json
}.

Record world : Type := {
  w_requests : list request;     (* calls of [requests.get] so far, with the
                                    arguments handed over, oldest first *)
  w_draws : nat;                 (* random indices consumed so far *)
  w_log : list string;           (* INFO messages, oldest first *)
  w_files : gmap string string   (* files written, by path *)
}.

Definition initial_world : world :=
  {| w_requests := []; w_draws := 0%nat; w_log := []; w_files := ∅ |}.

(** Statements of the script: they read and change the world, and return a
    value or raise.  The world survives an exception. *)
Definition M (A : Type) : Type := world -> result A * world.

Definition ret {A} (a : A) : M A := fun w => (Ok a, w).

Definition bind {A B} (m : M A) (k : A -> M B) : M B :=
  fun w =>
    match m w with
    | (Ok a, w') => k a w'
    | (Err e, w') => (Err e, w')
    end.

Definition lift {A} (r : result A) : M A := fun w => (r, w).

Notation "'let!' x ':=' m 'in' k" := (bind m (fun x => k))
  (at level 10, x pattern, m at level 100, k at level 200).
Notation "m ';;' k" := (bind m (fun _ => k))
  (at level 100, k at level 200, right associativity).

(** A [for] loop that updates local variables [s]. *)
Fixpoint for_each {A S} (body : S -> A -> M S) (l : list A) (s : S) : M S :=
  match l with
  | [] => ret s
  | x :: l' =>
      let! s' := body s x in
      for_each body l' s'
  end.

(** [logging.info(msg)]. *)
Definition logging_info (msg : string) : M unit :=
  fun w =>
    (Ok tt, {| w_requests := w_requests w; w_draws := w_draws w;
               w_log := w_log w ++ [msg]; w_files := w_files w |}).

(** [with open(path, mode="w") as f: f.write(content)].  The directory of
    [path] is taken to exist and to be writable, so that [open] returns,
    and truncating and writing are one step: a failure of [open] or in
    the middle of the write is outside the embedding. *)
Definition write_file (path content : string) : M unit :=
  fun w =>
    (Ok tt, {| w_requests := w_requests w; w_draws := w_draws w;
               w_log := w_log w; w_files := <[path := content]> (w_files w) |}).

(** [response.raise_for_status()]: [requests] raises for the client and
    server error codes, 400 to 599. *)
Definition is_error_status (code : Z) : bool :=
  (400 <=? code) && (code <? 600).

Definition raise_for_status (r : response) : result unit :=
  if is_error_status (status_code r) then Err HTTPError else Ok tt.

(** [response.json()]. *)
Definition response_json (r : response) : result json :=
  match body r with
  | Some j => Ok j
  | None => Err JSONDecodeError
  end.

(** ** The script *)

Definition GITLAB_API_URL : string := "https://git.esss.dk/api/v4".
Definition DMSC_NIGHTLY_PROJECT_ID : Z := 301.
Definition TEAMS : list string := ["ECDC"; "SCIPP"; "SWAT"; "DST"; "DONKI"; "IDS"].

Record Job : Type := {
  job_run_url : json;
  job_run_status : json;
  job_name : json;
  job_stage : json;
  teams : string
}.

(** One tuple of [run_chart]:
    [(pid, total_tests, failed_job_percentage, failed_tests, skipped_tests)]. *)
Definition run_tuple : Type := json * json * spec_float * json * json.

Definition tuple_0 (t : run_tuple) : json := let '(a, _, _, _, _) := t in a.
Definition tuple_1 (t : run_tuple) : json := let '(_, b, _, _, _) := t in b.
Definition tuple_2 (t : run_tuple) : spec_float := let '(_, _, c, _, _) := t in c.
Definition tuple_3 (t : run_tuple) : json := let '(_, _, _, d, _) := t in d.
Definition tuple_4 (t : run_tuple) : json := let '(_, _, _, _, e) := t in e.

(** One entry of [skipped_test_suites]: [(classname, name, job_name_url)]. *)
Definition skipped_entry : Type := json * json * string.

(** The keyword arguments of [template.render]. *)
Record render_args : Type := {
  ra_gitlab_tests : list Job;
  ra_failed_tests : list Job;
  ra_failed_job_percentage : string;
  ra_pipeline_end_time : string;
  ra_teams : list string;
  ra_failing_test : list json;
  ra_pipeline_run_ids : list json;
  ra_skipped_tests : list json;
  ra_number_of_tests : list json;
  ra_pipeline_id : json;
  ra_skipped_test_suites : list skipped_entry
}.

(** The local variables of the job loop. *)
Record buckets : Type := {
  success : list Job;
  failed : list Job;
  others : list Job
}.

(** Lines 97-99: the guarded percentage. *)
Definition failed_percentage (failed_tests total_tests : json) : result spec_float :=
  if py_truthy total_tests then
    let? q := py_truediv failed_tests total_tests in
    py_mul_float_int q 100
  else Ok (S754_zero false).

(** ** A sample run

    One pipeline, three jobs of the three kinds and a report with one
    suite; the remote side answers by URL, with a status code chosen by
    the caller. *)

Definition sample_object (fields : list (string * json)) : json :=
  JObj (list_to_map fields).

Definition sample_pipeline : gmap string json :=
  list_to_map [("id", JInt 42); ("updated_at", JStr "2024-01-02T03:04:05Z")].

Definition sample_pipelines : json := JArr [JObj sample_pipeline].

Definition sample_jobs : json :=
  JArr [sample_object [("web_url", JStr "https://git.esss.dk/j/1");
                       ("status", JStr "failed");
                       ("name", JStr "unit"); ("stage", JStr "test")];
        sample_object [("web_url", JStr "https://git.esss.dk/j/2");
                       ("status", JStr "success");
                       ("name", JStr "build"); ("stage", JStr "build")];
        sample_object [("web_url", JStr "https://git.esss.dk/j/3");
                       ("status", JStr "running");
                       ("name", JStr "deploy"); ("stage", JStr "deploy")]].

Definition sample_report : json :=
  sample_object
    [("total_count", JInt 10); ("failed_count", JInt 2); ("skipped_count", JInt 1);
     ("test_suites",
      JArr [sample_object
              [("name", JStr "A B");
               ("test_cases",
                JArr [sample_object [("status", JStr "skipped");
                                     ("classname", JStr "TestKafka");
                                     ("name", JStr "test_produce")];
                      sample_object [("status", JStr "success");
                                     ("classname", JStr "TestKafka");
                                     ("name", JStr "test_consume")]])]])].

Definition sample_server (code : Z) (n : nat) (req : request) : result response :=
  if String.eqb (req_url req)
       "https://git.esss.dk/api/v4/projects/301/pipelines?ref=main&per_page=50"
  then Ok {| status_code := code; body := Some sample_pipelines |}
  else if String.eqb (req_url req)
       "https://git.esss.dk/api/v4/projects/301/pipelines/42/jobs?per_page=100"
  then Ok {| status_code := code; body := Some sample_jobs |}
  else Ok {| status_code := code; body := Some sample_report |}.

(** A project with three pipelines, the newest first, each with its own
    counts; the jobs are those of the sample. *)
Definition history_pipelines : json :=
  JArr [sample_object [("id", JInt 44); ("updated_at", JStr "2024-01-04T21:30:00Z")];
        sample_object [("id", JInt 43); ("updated_at", JStr "2024-01-03T12:00:00Z")];
        sample_object [("id", JInt 42); ("updated_at", JStr "2024-01-02T03:04:05Z")]].

Definition history_report (total failed skipped : Z) : json :=
  sample_object
    [("total_count", JInt total); ("failed_count", JInt failed);
     ("skipped_count", JInt skipped); ("test_suites", JArr [])].

Definition history_server (n : nat) (req : request) : result response :=
  let answer j := Ok {| status_code := 200; body := Some j |} in
  if String.eqb (req_url req)
       "https://git.esss.dk/api/v4/projects/301/pipelines?ref=main&per_page=50"
  then answer history_pipelines
  else if String.eqb (req_url req)
       "https://git.esss.dk/api/v4/projects/301/pipelines/44/jobs?per_page=100"
  then answer sample_jobs
  else if String.eqb (req_url req)
       "https://git.esss.dk/api/v4/projects/301/pipelines/44/test_report"
  then answer (history_report 8 1 0)
  else if String.eqb (req_url req)
       "https://git.esss.dk/api/v4/projects/301/pipelines/43/test_report"
  then answer (history_report 10 2 1)
  else answer (history_report 5 0 2).

(** The scenario of one pipeline with the test report written out as
    [{total_count: 10, failed_count: 2, skipped_count: 1}] and nothing
    else. *)
Definition scenario_report : json :=
  sample_object
    [("total_count", JInt 10); ("failed_count", JInt 2); ("skipped_count", JInt 1)].

Definition scenario_server (n : nat) (req : request) : result response :=
  if String.eqb (req_url req)
       "https://git.esss.dk/api/v4/projects/301/pipelines?ref=main&per_page=50"
  then Ok {| status_code := 200; body := Some sample_pipelines |}
  else if String.eqb (req_url req)
       "https://git.esss.dk/api/v4/projects/301/pipelines/42/jobs?per_page=100"
  then Ok {| status_code := 200; body := Some sample_jobs |}
  else Ok {| status_code := 200; body := Some scenario_report |}.

(** A template that prints the percentage and the date. *)
Definition sample_template (name : string) : result (render_args -> result string) :=
  Ok (fun args =>
        Ok (ra_failed_job_percentage args +:+ " " +:+ ra_pipeline_end_time args)).

(** The remote side when the project has no pipeline yet. *)
Definition empty_server (n : nat) (req : request) : result response :=
  Ok {| status_code := 200; body := Some (JArr []) |}.

Section Script.

Set Default Proof Using "Type".

(** The surroundings of a run. *)

(** [os.getenv("GITLAB_PRIVATE_TOKEN")]. *)
Variable TOKEN : option string.

(** The library and the remote side: the outcome of the [n]-th call of
    [requests.get], with the arguments [req]: a response, or the exception
    that the call raises (a header that the library refuses, the
    transport).  What the library puts on the wire - it may take the
    credentials of [~/.netrc], and it normalises the URL - is inside
    this function. *)
Variable server : nat -> request -> result response.

(** The random source: the [n]-th index drawn. *)
Variable draws : nat -> nat.

(** [str(v)] for floats, lists and dicts, whose text is not modelled. *)
Variable py_str_other : json -> string.

(** [datetime.fromisoformat] outside the grammar of [parse_isoformat]. *)
Variable fromisoformat_other : string -> result datetime.

(** [Environment(...).get_template(name)]: the template as the function
    its [render] method computes, or the exception of the lookup. *)
Variable get_template : string -> result (render_args -> result string).

(** [str(v)], as an f-string applies it. *)
Definition py_str (v : json) : string :=
  match v with
  | JStr s => s
  | JInt n => Z_to_string n
  | JNull => "None"
  | JBool true => "True"
  | JBool false => "False"
  | _ => py_str_other v
  end.

Definition fromisoformat (s : string) : result datetime :=
  match parse_isoformat s with
  | Some d => Ok d
  | None => fromisoformat_other s
  end.

(** [requests.get(url, headers={"Authorization": auth})]: the call is
    recorded with its arguments, and its outcome is that of [server]. *)
Definition requests_get (url auth : string) : M response :=
  fun w =>
    let req := {| req_url := url; req_authorization := auth |} in
    (server (List.length (w_requests w)) req,
     {| w_requests := w_requests w ++ [req]; w_draws := w_draws w;
        w_log := w_log w; w_files := w_files w |}).

(** [random.choices(population, k=k)]. *)
Definition random_choice (population : list string) : M string :=
  fun w =>
    (Ok (nth (draws (w_draws w) mod List.length population)%nat population ""),
     {| w_requests := w_requests w; w_draws := S (w_draws w);
        w_log := w_log w; w_files := w_files w |}).

Fixpoint random_choices (population : list string) (k : nat) : M (list string) :=
  match k with
  | O => ret []
  | S k' =>
      let! x := random_choice population in
      let! xs := random_choices population k' in
      ret (x :: xs)
  end.

Definition authorization : string :=
  "PRIVATE-TOKEN " +:+ match TOKEN with Some t => t | None => "None" end.

Definition get_pipelines (project_id : Z) : M (json * list json) :=
  let url := GITLAB_API_URL +:+ "/projects/" +:+ Z_to_string project_id
             +:+ "/pipelines?ref=main&per_page=50" in
  logging_info ("Fetching pipelines from URL: " +:+ url) ;;
  let! response := requests_get url authorization in
  lift (raise_for_status response) ;;
  let! pipelines := lift (response_json response) in
  let! latest_pipeline := lift (py_getitem_0 pipelines) in
  let! first := lift (py_slice_to pipelines 50) in
  let! items := lift (py_iter first) in
  let! last_50_pipelines :=
    lift (rmap (fun pipeline => py_getitem_key pipeline "id") items) in
  ret (latest_pipeline, last_50_pipelines).

Definition get_jobs (project_id : Z) (pipeline_id : json) : M json :=
  let url := GITLAB_API_URL +:+ "/projects/" +:+ Z_to_string project_id
             +:+ "/pipelines/" +:+ py_str pipeline_id +:+ "/jobs?per_page=100" in
  let! response := requests_get url authorization in
  lift (raise_for_status response) ;;
  lift (response_json response).

Definition get_test_report (project_id : Z) (pipeline_id : json) : M json :=
  let url := GITLAB_API_URL +:+ "/projects/" +:+ Z_to_string project_id
             +:+ "/pipelines/" +:+ py_str pipeline_id +:+ "/test_report" in
  let! response := requests_get url authorization in
  lift (raise_for_status response) ;;
  lift (response_json response).

(** Lines 72-83: the body of the job loop. *)
Definition job_body (b : buckets) (job : json) : M buckets :=
  let! picked := random_choices TEAMS 2 in
  let temp_teams := str_join ", " picked in
  let! web_url := lift (py_getitem_key job "web_url") in
  let! status := lift (py_getitem_key job "status") in
  let! name := lift (py_getitem_key job "name") in
  let! stage := lift (py_getitem_key job "stage") in
  let job_obj := {| job_run_url := web_url; job_run_status := status;
                    job_name := name; job_stage := stage;
                    teams := temp_teams |} in
  let! status1 := lift (py_getitem_key job "status") in
  if py_eq_str status1 "success" then
    ret {| success := success b ++ [job_obj]; failed := failed b;
           others := others b |}
  else
    let! status2 := lift (py_getitem_key job "status") in
    if py_eq_str status2 "failed" then
      ret {| success := success b; failed := failed b ++ [job_obj];
             others := others b |}
    else
      let job_obj' := {| job_run_url := job_run_url job_obj;
                         job_run_status := JStr "";
                         job_name := job_name job_obj;
                         job_stage := job_stage job_obj;
                         teams := teams job_obj |} in
      ret {| success := success b; failed := failed b;
             others := others b ++ [job_obj'] |}.

(** Lines 86-89. *)
Definition log_job (_ : unit) (job : Job) : M unit :=
  logging_info ("Job: " +:+ py_str (job_name job)
                +:+ ", Status: " +:+ py_str (job_run_status job)
                +:+ ", URL: " +:+ py_str (job_run_url job)
                +:+ ", Stage: " +:+ py_str (job_stage job)).

(** Lines 93-102: the body of the history loop. *)
Definition run_chart_body (run_chart : list run_tuple) (pid : json)
  : M (list run_tuple) :=
  let! test_report := get_test_report DMSC_NIGHTLY_PROJECT_ID pid in
  let! total_tests := lift (py_getitem_key test_report "total_count") in
  let! failed_tests := lift (py_getitem_key test_report "failed_count") in
  let! skipped_tests := lift (py_getitem_key test_report "skipped_count") in
  let! failed_job_percentage := lift (failed_percentage failed_tests total_tests) in
  ret (run_chart ++
       [(pid, total_tests, failed_job_percentage, failed_tests, skipped_tests)]).

(** Line 111. *)
Definition job_name_url (pipeline_id job_name : json) : result string :=
  let? quoted := quote job_name in
  Ok ("https://git.esss.dk/dmsc-nightly/dmsc-nightly/-/pipelines/"
      +:+ py_str pipeline_id +:+ "/test_report?job_name=" +:+ quoted).

(** Lines 113-116: the body of the inner loop over test cases. *)
Definition test_case_body (url : string) (acc : list skipped_entry)
    (test_cases : json) : result (list skipped_entry) :=
  let? status := py_getitem_key test_cases "status" in
  if py_eq_str status "skipped" then
    let? classname := py_getitem_key test_cases "classname" in
    let? name := py_getitem_key test_cases "name" in
    Ok (acc ++ [(classname, name, url)])
  else Ok acc.

(** A [for] loop without effects on the world. *)
Fixpoint rfold {A S} (body : S -> A -> result S) (l : list A) (s : S) : result S :=
  match l with
  | [] => Ok s
  | x :: l' =>
      let? s' := body s x in
      rfold body l' s'
  end.

(** Lines 110-116: the body of the loop over test suites. *)
Definition test_suite_body (pipeline_id : json) (acc : list skipped_entry)
    (test : json) : result (list skipped_entry) :=
  let? job_name := py_getitem_key test "name" in
  let? url := job_name_url pipeline_id job_name in
  let? cases := py_getitem_key test "test_cases" in
  let? cases := py_iter cases in
  rfold (test_case_body url) cases acc.

(** Lines 121-122. *)
Definition format_date (pipeline : json) : result string :=
  let? updated_at := py_getitem_key pipeline "updated_at" in
  let? text := py_replace updated_at "Z" "+00:00" in
  let? date := fromisoformat text in
  Ok (strftime "%B %d, %Y %I:%M %p" date +:+ " UTC").

(** Lines 124-125. *)
Definition format_percentage (run_chart : list run_tuple) : result string :=
  let percentage_data := tuple_2 <$> run_chart in
  let? latest := py_last percentage_data in
  Ok (format_2f latest +:+ "%").

Definition main : M unit :=
  let! (pipeline, last_50) := get_pipelines DMSC_NIGHTLY_PROJECT_ID in
  let! pipeline_id := lift (py_getitem_key pipeline "id") in
  let! jobs := get_jobs DMSC_NIGHTLY_PROJECT_ID pipeline_id in

  let! jobs := lift (py_iter jobs) in
  let! b := for_each job_body jobs
              {| success := []; failed := []; others := [] |} in
  let all_jobs := success b ++ failed b ++ others b in
  for_each log_job all_jobs tt ;;

  let! run_chart := for_each run_chart_body last_50 [] in
  let run_chart := rev run_chart in

  let! last_run_test_report :=
    get_test_report DMSC_NIGHTLY_PROJECT_ID pipeline_id in
  let! test_suites := lift (py_getitem_key last_run_test_report "test_suites") in
  let! test_suites := lift (py_iter test_suites) in
  let! skipped_test_suites :=
    lift (rfold (test_suite_body pipeline_id) test_suites []) in

  let! template := lift (get_template "dashboard.html") in

  let! formatted_date := lift (format_date pipeline) in

  let! failed_job_percentage := lift (format_percentage run_chart) in
  let pipeline_run_ids := tuple_0 <$> run_chart in
  let number_of_tests := tuple_1 <$> run_chart in
  let failing_test := tuple_3 <$> run_chart in
  let skipped_tests := tuple_4 <$> run_chart in

  let! content :=
    lift (template
            {| ra_gitlab_tests := all_jobs;
               ra_failed_tests := failed b;
               ra_failed_job_percentage := failed_job_percentage;
               ra_pipeline_end_time := formatted_date;
               ra_teams := TEAMS;
               ra_failing_test := failing_test;
               ra_pipeline_run_ids := pipeline_run_ids;
               ra_skipped_tests := skipped_tests;
               ra_number_of_tests := number_of_tests;
               ra_pipeline_id := pipeline_id;
               ra_skipped_test_suites := skipped_test_suites |}) in

  let filename := "render/rendered.html" in
  write_file filename content ;;
  logging_info ("... wrote " +:+ filename).

(** ** Vocabulary of the statements *)

(** The request that [get_test_report] sends for a pipeline. *)
Definition test_report_request (pid : json) : request :=
  {| req_url := GITLAB_API_URL +:+ "/projects/"
                +:+ Z_to_string DMSC_NIGHTLY_PROJECT_ID
                +:+ "/pipelines/" +:+ py_str pid +:+ "/test_report";
     req_authorization := authorization |}.

Definition pipelines_request : request :=
  {| req_url := GITLAB_API_URL +:+ "/projects/"
                +:+ Z_to_string DMSC_NIGHTLY_PROJECT_ID
                +:+ "/pipelines?ref=main&per_page=50";
     req_authorization := authorization |}.

Definition jobs_request (pid : json) : request :=
  {| req_url := GITLAB_API_URL +:+ "/projects/"
                +:+ Z_to_string DMSC_NIGHTLY_PROJECT_ID
                +:+ "/pipelines/" +:+ py_str pid +:+ "/jobs?per_page=100";
     req_authorization := authorization |}.

(** The world after one more GET. *)
Definition sent (req : request) (w : world) : world :=
  {| w_requests := w_requests w ++ [req]; w_draws := w_draws w;
     w_log := w_log w; w_files := w_files w |}.

(** [j] is the decoded body of the response to the [n]-th GET of the run,
    sent as [req], and that response passes the status check. *)
Definition served (n : nat) (req : request) (j : json) : Prop :=
  exists resp,
    server n req = Ok resp
    /\ is_error_status (status_code resp) = false
    /\ body resp = Some j.

(** The tuple that the history loop builds from one test report. *)
Definition tuple_of_report (pid report : json) : result run_tuple :=
  let? total_tests := py_getitem_key report "total_count" in
  let? failed_tests := py_getitem_key report "failed_count" in
  let? skipped_tests := py_getitem_key report "skipped_count" in
  let? failed_job_percentage := failed_percentage failed_tests total_tests in
  Ok (pid, total_tests, failed_job_percentage, failed_tests, skipped_tests).

(** [obj] is the [Job] that the job loop builds from [job]: the four
    fields read off the entry, and the status blanked unless it is
    ["success"] or ["failed"]. *)
Definition job_of (job : json) (obj : Job) : Prop :=
  exists status,
    py_getitem_key job "web_url" = Ok (job_run_url obj)
    /\ py_getitem_key job "status" = Ok status
    /\ py_getitem_key job "name" = Ok (job_name obj)
    /\ py_getitem_key job "stage" = Ok (job_stage obj)
    /\ job_run_status obj =
         (if py_eq_str status "success" || py_eq_str status "failed"
          then status else JStr "").

Definition is_success (obj : Job) : bool := py_eq_str (job_run_status obj) "success".
Definition is_failed (obj : Job) : bool := py_eq_str (job_run_status obj) "failed".
Definition is_other (obj : Job) : bool := negb (is_success obj) && negb (is_failed obj).

(** The test cases of a suite, as the inner loop visits them. *)
Definition cases_of (test : json) : result (list json) :=
  let? cases := py_getitem_key test "test_cases" in
  py_iter cases.

(** The test [status == "skipped"] of the inner loop. *)
Definition is_skipped (tc : json) : bool :=
  match py_getitem_key tc "status" with
  | Ok status => py_eq_str status "skipped"
  | Err _ => false
  end.

(** [e] is the entry [(classname, name, url)] of the test case [tc]. *)
Definition case_entry (url : string) (tc : json) (e : skipped_entry) : Prop :=
  py_getitem_key tc "classname" = Ok (fst (fst e))
  /\ py_getitem_key tc "name" = Ok (snd (fst e))
  /\ snd e = url.

(** [e] is the table entry of the test case [tc] of the suite [test]. *)
Definition entry_of (pipeline_id test tc : json) (e : skipped_entry) : Prop :=
  exists suite_name url,
    py_getitem_key test "name" = Ok suite_name
    /\ job_name_url pipeline_id suite_name = Ok url
    /\ case_entry url tc e.

(** [es] are the entries of the suite [test]: one for each of its
    skipped test cases, in their order. *)
Definition suite_entries (pipeline_id test : json) (es : list skipped_entry) : Prop :=
  exists suite_name url cases,
    py_getitem_key test "name" = Ok suite_name
    /\ job_name_url pipeline_id suite_name = Ok url
    /\ cases_of test = Ok cases
    /\ Forall2 (case_entry url) (List.filter is_skipped cases) es.

(** [t] is the tuple built for [pid], from a report that the server
    gave for that pipeline. *)
Definition tuple_for (pid : json) (t : run_tuple) : Prop :=
  exists n report,
    served n (test_report_request pid) report
    /\ tuple_of_report pid report = Ok t.

(** A job entry that the job loop can read: the four fields are there. *)
Definition job_ok (job : json) : Prop :=
  exists web_url status name stage,
    py_getitem_key job "web_url" = Ok web_url
    /\ py_getitem_key job "status" = Ok status
    /\ py_getitem_key job "name" = Ok name
    /\ py_getitem_key job "stage" = Ok stage.

(** A test case that the inner loop can read: it has a status, and a class
    name and a name when it is skipped. *)
Definition case_ok (tc : json) : Prop :=
  exists status,
    py_getitem_key tc "status" = Ok status
    /\ (py_eq_str status "skipped" = true ->
        exists classname name,
          py_getitem_key tc "classname" = Ok classname
          /\ py_getitem_key tc "name" = Ok name).

(** A test suite that the outer loop can read: its name is a [str] and its
    test cases are readable. *)
Definition suite_ok (test : json) : Prop :=
  exists suite_name cases,
    py_getitem_key test "name" = Ok (JStr suite_name)
    /\ cases_of test = Ok cases
    /\ Forall case_ok cases.

(** A denominator that division rejects: [0], [False], [0.0], [-0.0]. *)
Definition is_zero_number (v : json) : bool :=
  match as_number v with
  | Some (NInt n) => n =? 0
  | Some (NFloat x) => float_is_zero x
  | None => false
  end.

Definition non_2xx (code : Z) : bool :=
  negb ((200 <=? code) && (code <? 300)).

(** [m] sends its requests one after the other and stops at the first
    response whose status is an error: such a response makes [m] raise
    [HTTPError] and is the last request sent.  [m] writes no file, unless
    [ro] is off and [m] returns. *)
Definition strict (ro : bool) {A} (m : M A) : Prop :=
  forall w r w',
    m w = (r, w') ->
    exists new,
      w_requests w' = w_requests w ++ new
      /\ ((ro = true \/ exists e, r = Err e) -> w_files w' = w_files w)
      /\ forall k req resp,
          new !! k = Some req ->
          server (List.length (w_requests w) + k) req = Ok resp ->
          is_error_status (status_code resp) = true ->
          r = Err HTTPError /\ S k = List.length new.

(** The local variables of [main] in a run that reaches the end. *)
Record locals : Type := {
  l_pipeline : json;
  l_last_50 : list json;
  l_pipeline_id : json;
  l_jobs : list json;            (* the fetched job list *)
  l_buckets : buckets;
  l_tuples : list run_tuple;     (* [run_chart] before [reverse()] *)
  l_test_suites : list json;     (* the suites of the latest report *)
  l_args : render_args;
  l_content : string
}.

Definition all_jobs (b : buckets) : list Job :=
  success b ++ failed b ++ others b.

(** A run of [main] from [w] that ends in [w'] without an exception, with
    the values its variables took. *)
Definition completed (w : world) (L : locals) (w' : world) : Prop :=
  exists w1 w2 w3 w4 w5 w6 jobs_json report suites_json skipped template
         formatted_date failed_job_percentage,
    get_pipelines DMSC_NIGHTLY_PROJECT_ID w = (Ok (l_pipeline L, l_last_50 L), w1)
    /\ py_getitem_key (l_pipeline L) "id" = Ok (l_pipeline_id L)
    /\ get_jobs DMSC_NIGHTLY_PROJECT_ID (l_pipeline_id L) w1 = (Ok jobs_json, w2)
    /\ py_iter jobs_json = Ok (l_jobs L)
    /\ for_each job_body (l_jobs L)
         {| success := []; failed := []; others := [] |} w2
       = (Ok (l_buckets L), w3)
    /\ for_each log_job (all_jobs (l_buckets L)) tt w3 = (Ok tt, w4)
    /\ for_each run_chart_body (l_last_50 L) [] w4 = (Ok (l_tuples L), w5)
    /\ get_test_report DMSC_NIGHTLY_PROJECT_ID (l_pipeline_id L) w5 = (Ok report, w6)
    /\ py_getitem_key report "test_suites" = Ok suites_json
    /\ py_iter suites_json = Ok (l_test_suites L)
    /\ rfold (test_suite_body (l_pipeline_id L)) (l_test_suites L) [] = Ok skipped
    /\ get_template "dashboard.html" = Ok template
    /\ format_date (l_pipeline L) = Ok formatted_date
    /\ format_percentage (rev (l_tuples L)) = Ok failed_job_percentage
    /\ l_args L =
         {| ra_gitlab_tests := all_jobs (l_buckets L);
            ra_failed_tests := failed (l_buckets L);
            ra_failed_job_percentage := failed_job_percentage;
            ra_pipeline_end_time := formatted_date;
            ra_teams := TEAMS;
            ra_failing_test := tuple_3 <$> rev (l_tuples L);
            ra_pipeline_run_ids := tuple_0 <$> rev (l_tuples L);
            ra_skipped_tests := tuple_4 <$> rev (l_tuples L);
            ra_number_of_tests := tuple_1 <$> rev (l_tuples L);
            ra_pipeline_id := l_pipeline_id L;
            ra_skipped_test_suites := skipped |}
    /\ template (l_args L) = Ok (l_content L)
    /\ w' = {| w_requests := w_requests w6; w_draws := w_draws w6;
               w_log := w_log w6 ++ ["... wrote render/rendered.html"];
               w_files := <["render/rendered.html" := l_content L]> (w_files w6) |}.

(** A run of [main] aborts on a response whose status satisfies [bad]:
    whichever request of the run receives it, [main] raises [HTTPError],
    that request is the last one sent (nothing is retried, nothing is
    fetched after it) and no file is written. *)
Definition aborts_on (bad : Z -> bool) : Prop :=
  forall w r w' k req resp,
    main w = (r, w') ->
    (List.length (w_requests w) <= k)%nat ->
    w_requests w' !! k = Some req ->
    server k req = Ok resp ->
    bad (status_code resp) = true ->
    r = Err HTTPError
    /\ S k = List.length (w_requests w')
    /\ w_files w' = w_files w.

(** The arguments of a call of the script: the token header and a URL of
    the pipelines of the project. *)
Definition api_request (req : request) : Prop :=
  req_authorization req = authorization
  /\ exists rest,
      req_url req
      = "https://git.esss.dk/api/v4/projects/301/pipelines" +:+ rest.

(** The arguments of every call of [requests.get] that [m] makes
    satisfy [P]. *)
Definition calls (P : request -> Prop) {A} (m : M A) : Prop :=
  forall w r w',
    m w = (r, w') ->
    exists new, w_requests w' = w_requests w ++ new /\ Forall P new.

(** A placeholder label of the job loop: two team names joined by a comma
    and a space. *)
Definition team_label (text : string) : Prop :=
  exists a b, In a TEAMS /\ In b TEAMS /\ text = a +:+ ", " +:+ b.

(** The line that [main] logs for a job of the combined list. *)
Definition job_line (job : Job) : string :=
  "Job: " +:+ py_str (job_name job)
  +:+ ", Status: " +:+ py_str (job_run_status job)
  +:+ ", URL: " +:+ py_str (job_run_url job)
  +:+ ", Stage: " +:+ py_str (job_stage job).

(** ** The monad *)

Lemma bind_Ok {A B} (m : M A) (k : A -> M B) w b w' :
  bind m k w = (Ok b, w') ->
  exists a w1, m w = (Ok a, w1) /\ k a w1 = (Ok b, w').
Proof.
  unfold bind. destruct (m w) as [[a|e] w1]; intros H.
  - eauto.
  - discriminate.
Qed.

Lemma bind_cases {A B} (m : M A) (k : A -> M B) w r w' :
  bind m k w = (r, w') ->
  (exists a w1, m w = (Ok a, w1) /\ k a w1 = (r, w'))
  \/ (exists e, m w = (Err e, w') /\ r = Err e).
Proof.
  unfold bind. destruct (m w) as [[a|e] w1]; intros H.
  - left. eauto.
  - right. inversion H; subst. eauto.
Qed.

Lemma lift_Ok {A} (r : result A) w a w' :
  lift r w = (Ok a, w') -> r = Ok a /\ w' = w.
Proof. unfold lift. intros H. inversion H; subst. auto. Qed.

Lemma ret_Ok {A} (x : A) w a w' :
  ret x w = (Ok a, w') -> a = x /\ w' = w.
Proof. unfold ret. intros H. inversion H; subst. auto. Qed.

Lemma rbind_Ok {A B} (r : result A) (k : A -> result B) b :
  rbind r k = Ok b -> exists a, r = Ok a /\ k a = Ok b.
Proof. destruct r as [a|e]; simpl; intros H; [eauto | discriminate]. Qed.

(** Splits a hypothesis [bind m k w = (Ok b, w')] into the run of [m] and
    the run of [k]; lifted results and returns are resolved on the way. *)
Ltac run_step H :=
  let a := fresh "a" in
  let w1 := fresh "w" in
  let H1 := fresh "Hrun" in
  apply bind_Ok in H; destruct H as (a & w1 & H1 & H);
  try (apply lift_Ok in H1; destruct H1 as [H1 ->]).

(** ** [main], step by step *)

Lemma main_completed w w' :
  main w = (Ok tt, w') -> exists L, completed w L w'.
Proof.
  unfold main. intros H.
  run_step H. destruct a as [pipeline last_50].
  run_step H. rename a into pipeline_id.
  run_step H. rename a into jobs_json.
  run_step H. rename a into jobs.
  run_step H. rename a into b.
  run_step H. destruct a.
  run_step H. rename a into tuples.
  run_step H. rename a into report.
  run_step H. rename a into suites_json.
  run_step H. rename a into suites.
  run_step H. rename a into skipped.
  run_step H. rename a into template.
  run_step H. rename a into formatted_date.
  run_step H. rename a into pct.
  run_step H. rename a into content.
  run_step H. destruct a.
  unfold write_file in Hrun14. inversion Hrun14; subst; clear Hrun14.
  unfold logging_info in H. inversion H; subst; clear H. simpl.
  eexists {| l_pipeline := pipeline; l_last_50 := last_50;
             l_pipeline_id := pipeline_id; l_jobs := jobs; l_buckets := b;
             l_tuples := tuples; l_test_suites := suites;
             l_args := _; l_content := content |}.
  unfold completed; simpl.
  do 13 eexists.
  repeat match goal with |- _ /\ _ => split end;
    first [eassumption | reflexivity].
Qed.

(** ** The three fetches *)

(** The common shape of [get_jobs] and [get_test_report]: one GET, the
    status check, the decoded body. *)
Lemma fetch_Ok url auth w j w' :
  (let! response := requests_get url auth in
   lift (raise_for_status response) ;;
   lift (response_json response)) w = (Ok j, w') ->
  served (List.length (w_requests w))
         {| req_url := url; req_authorization := auth |} j
  /\ w' = sent {| req_url := url; req_authorization := auth |} w.
Proof.
  intros H. run_step H. rename a into resp.
  run_step H. apply lift_Ok in H. destruct H as [Hjson ->].
  unfold requests_get in Hrun. inversion Hrun as [[Hsrv Hw]]; clear Hrun.
  split; [| reflexivity].
  exists resp. split; [assumption |].
  unfold raise_for_status in Hrun0. unfold response_json in Hjson.
  destruct (is_error_status (status_code resp)); [discriminate |].
  destruct (body resp); [| discriminate].
  inversion Hjson; subst. auto.
Qed.

Lemma get_test_report_Ok pid w report w' :
  get_test_report DMSC_NIGHTLY_PROJECT_ID pid w = (Ok report, w') ->
  served (List.length (w_requests w)) (test_report_request pid) report
  /\ w' = sent (test_report_request pid) w.
Proof. apply fetch_Ok. Qed.

Lemma rmap_length {A B} (f : A -> result B) l l' :
  rmap f l = Ok l' -> List.length l' = List.length l.
Proof.
  revert l'. induction l as [|x l IH]; simpl; intros l' H.
  - inversion H; reflexivity.
  - apply rbind_Ok in H. destruct H as (y & Hy & H).
    apply rbind_Ok in H. destruct H as (ys & Hys & H).
    inversion H; subst. simpl. f_equal. auto.
Qed.

Lemma utf8_chars_nil s : utf8_chars s = [] -> s = "".
Proof.
  destruct s as [|c s]; [reflexivity |]. simpl.
  destruct s as [|c' s']; [discriminate |].
  destruct (is_continuation c'); [| discriminate].
  destruct (utf8_chars (String c' s')); discriminate.
Qed.

Lemma utf8_chars_nonempty s c cs :
  utf8_chars s = c :: cs -> exists a c', c = String a c'.
Proof.
  destruct s as [|a s]; [discriminate |]. simpl.
  destruct s as [|c' s'].
  - intros H; inversion H; eauto.
  - destruct (is_continuation c').
    + destruct (utf8_chars (String c' s')); intros H; inversion H; eauto.
    + intros H; inversion H; eauto.
Qed.

(** What [get_pipelines] returns when it returns: the response was a
    non-empty list, the latest pipeline is its first element and the ids
    are those of its first fifty elements, in order. *)
Lemma get_pipelines_Ok w latest ids w' :
  get_pipelines DMSC_NIGHTLY_PROJECT_ID w = (Ok (latest, ids), w') ->
  exists rest,
    served (List.length (w_requests w)) pipelines_request (JArr (latest :: rest))
    /\ rmap (fun p => py_getitem_key p "id") (take 50 (latest :: rest)) = Ok ids
    /\ w_requests w' = w_requests w ++ [pipelines_request]
    /\ w_files w' = w_files w.
Proof.
  unfold get_pipelines. intros H.
  run_step H. clear Hrun a.
  run_step H. rename a into resp. cbn [w_requests] in Hrun.
  run_step H. rename Hrun0 into Hstatus. destruct a.
  run_step H. rename a into pipelines, Hrun0 into Hjson.
  run_step H. rename a into first_pipeline, Hrun0 into Hfirst.
  run_step H. rename a into first, Hrun0 into Hslice.
  run_step H. rename a into items, Hrun0 into Hiter.
  run_step H. rename a into last_50, Hrun0 into Hids.
  apply ret_Ok in H. destruct H as [H Hw]. subst w'.
  inversion H; subst first_pipeline last_50; clear H.
  cbn [w_requests w_files].
  assert (Hshape : exists rest, pipelines = JArr (latest :: rest)).
  { destruct pipelines as [| | | |s|l|o]; simpl in Hfirst; try discriminate.
    - (* a str: the comprehension indexes its first character with "id" *)
      exfalso. simpl in Hslice. inversion Hslice; subst first; clear Hslice.
      simpl in Hiter. inversion Hiter; subst items; clear Hiter.
      destruct (utf8_chars s) as [|c cs] eqn:Es; [discriminate |].
      destruct (utf8_chars_nonempty _ _ _ Es) as (a & c' & ->).
      destruct (utf8_chars (str_concat (take 50 (String a c' :: cs))))
        as [|x xs] eqn:E.
      + apply utf8_chars_nil in E. simpl in E. discriminate.
      + simpl in Hids. discriminate.
    - destruct l as [|p rest]; [discriminate |].
      inversion Hfirst; subst. eauto. }
  destruct Hshape as [rest ->]. exists rest.
  simpl in Hslice. inversion Hslice; subst first.
  simpl in Hiter. inversion Hiter; subst items.
  repeat split; try assumption.
  exists resp. unfold raise_for_status in Hstatus. unfold response_json in Hjson.
  destruct (is_error_status (status_code resp)); [discriminate |].
  destruct (body resp); [| discriminate]. inversion Hjson; subst. auto.
Qed.

(** ** The history loop *)

Lemma run_chart_body_Ok rc pid w rc' w' :
  run_chart_body rc pid w = (Ok rc', w') ->
  exists report t,
    served (List.length (w_requests w)) (test_report_request pid) report
    /\ tuple_of_report pid report = Ok t
    /\ rc' = rc ++ [t]
    /\ w' = sent (test_report_request pid) w.
Proof.
  unfold run_chart_body. intros H.
  run_step H. rename a into report.
  apply get_test_report_Ok in Hrun. destruct Hrun as [Hserved ->].
  run_step H. run_step H. run_step H. run_step H.
  apply ret_Ok in H. destruct H as [-> ->].
  exists report. eexists. split; [exact Hserved |].
  split; [| split; reflexivity].
  unfold tuple_of_report.
  rewrite Hrun, Hrun0, Hrun1. cbn [rbind]. rewrite Hrun2. reflexivity.
Qed.

Lemma run_chart_loop pids : forall rc w rc' w',
  for_each run_chart_body pids rc w = (Ok rc', w') ->
  exists ts,
    rc' = rc ++ ts
    /\ Forall2 tuple_for pids ts
    /\ w_requests w' = w_requests w ++ (test_report_request <$> pids)
    /\ w_files w' = w_files w.
Proof.
  induction pids as [|pid pids IH]; simpl; intros rc w rc' w' H.
  - apply ret_Ok in H. destruct H as [-> ->].
    exists []. rewrite !app_nil_r. auto.
  - run_step H.
    apply run_chart_body_Ok in Hrun.
    destruct Hrun as (report & t & Hserved & Ht & -> & ->).
    apply IH in H. destruct H as (ts & -> & Hts & Hreq & Hfiles).
    exists (t :: ts). rewrite <- app_assoc. simpl.
    split; [reflexivity |].
    split; [constructor; [exists (List.length (w_requests w)), report; auto | exact Hts] |].
    rewrite Hreq, Hfiles. simpl. rewrite <- app_assoc. auto.
Qed.

Lemma tuple_of_report_Ok pid report t :
  tuple_of_report pid report = Ok t ->
  tuple_0 t = pid
  /\ py_getitem_key report "total_count" = Ok (tuple_1 t)
  /\ py_getitem_key report "failed_count" = Ok (tuple_3 t)
  /\ py_getitem_key report "skipped_count" = Ok (tuple_4 t)
  /\ failed_percentage (tuple_3 t) (tuple_1 t) = Ok (tuple_2 t).
Proof.
  unfold tuple_of_report. intros H.
  apply rbind_Ok in H. destruct H as (total & Htotal & H).
  apply rbind_Ok in H. destruct H as (nfailed & Hfailed & H).
  apply rbind_Ok in H. destruct H as (nskipped & Hskipped & H).
  apply rbind_Ok in H. destruct H as (pct & Hpct & H).
  inversion H; subst t; simpl. auto.
Qed.

(** ** The job loop *)

Lemma random_choices_Ok population k : forall w,
  exists picked,
    random_choices population k w
    = (Ok picked, {| w_requests := w_requests w; w_draws := (w_draws w + k)%nat;
                     w_log := w_log w; w_files := w_files w |})
    /\ List.length picked = k.
Proof.
  induction k as [|k IH]; intros w; simpl.
  - exists []. unfold ret. destruct w; simpl. rewrite Nat.add_0_r. auto.
  - destruct (IH {| w_requests := w_requests w; w_draws := S (w_draws w);
                    w_log := w_log w; w_files := w_files w |})
      as (picked & Heq & Hlen).
    simpl in Heq.
    replace (w_draws w + S k)%nat with (S (w_draws w + k)) by lia.
    eexists. unfold bind, random_choice. rewrite Heq. unfold ret.
    split; [reflexivity | simpl; rewrite Hlen; reflexivity].
Qed.

Lemma py_eq_str_true v s : py_eq_str v s = true <-> v = JStr s.
Proof.
  destruct v; simpl; try (split; [discriminate | intros H; discriminate H]).
  rewrite String.eqb_eq. split; [intros -> | intros H; inversion H]; reflexivity.
Qed.

Lemma job_body_Ok b job w b' w' :
  job_body b job w = (Ok b', w') ->
  exists obj,
    job_of job obj
    /\ success b' = success b ++ List.filter is_success [obj]
    /\ failed b' = failed b ++ List.filter is_failed [obj]
    /\ others b' = others b ++ List.filter is_other [obj]
    /\ w_requests w' = w_requests w
    /\ w_files w' = w_files w.
Proof.
  unfold job_body. intros H.
  run_step H. rename a into picked.
  clear Hrun.
  run_step H. rename a into web_url, Hrun into Hurl.
  run_step H. rename a into status, Hrun into Hstatus.
  run_step H. rename a into name, Hrun into Hname.
  run_step H. rename a into stage, Hrun into Hstage.
  run_step H. rewrite Hstatus in Hrun. inversion Hrun; subst a; clear Hrun.
  destruct (py_eq_str status "success") eqn:Es.
  - apply ret_Ok in H. destruct H as [-> ->].
    exists {| job_run_url := web_url; job_run_status := status;
              job_name := name; job_stage := stage;
              teams := str_join ", " picked |}.
    split.
    + exists status. simpl. rewrite Es. simpl. auto.
    + unfold is_other, is_success, is_failed. simpl. rewrite Es.
      apply py_eq_str_true in Es. subst status. simpl.
      rewrite !app_nil_r. auto.
  - run_step H. rewrite Hstatus in Hrun. inversion Hrun; subst a; clear Hrun.
    destruct (py_eq_str status "failed") eqn:Ef.
    + apply ret_Ok in H. destruct H as [-> ->].
      exists {| job_run_url := web_url; job_run_status := status;
                job_name := name; job_stage := stage;
                teams := str_join ", " picked |}.
      split.
      * exists status. simpl. rewrite Es, Ef. simpl. auto.
      * unfold is_other, is_success, is_failed. simpl. rewrite Es, Ef.
        simpl. rewrite !app_nil_r. auto.
    + apply ret_Ok in H. destruct H as [-> ->].
      exists {| job_run_url := web_url; job_run_status := JStr "";
                job_name := name; job_stage := stage;
                teams := str_join ", " picked |}.
      split.
      * exists status. simpl. rewrite Es, Ef. simpl. auto.
      * unfold is_other, is_success, is_failed. simpl.
        rewrite !app_nil_r. auto.
Qed.

Lemma filter_cons_app {A} (f : A -> bool) x l :
  List.filter f (x :: l) = List.filter f [x] ++ List.filter f l.
Proof. simpl. destruct (f x); reflexivity. Qed.

Lemma job_loop jobs : forall b w b' w',
  for_each job_body jobs b w = (Ok b', w') ->
  exists objs,
    Forall2 job_of jobs objs
    /\ success b' = success b ++ List.filter is_success objs
    /\ failed b' = failed b ++ List.filter is_failed objs
    /\ others b' = others b ++ List.filter is_other objs
    /\ w_requests w' = w_requests w
    /\ w_files w' = w_files w.
Proof.
  induction jobs as [|job jobs IH]; simpl; intros b w b' w' H.
  - apply ret_Ok in H. destruct H as [-> ->].
    exists []. simpl. rewrite !app_nil_r.
    split; [constructor | auto].
  - run_step H. rename a into b1.
    apply job_body_Ok in Hrun.
    destruct Hrun as (obj & Hobj & Hs & Hf & Ho & Hreq & Hfiles).
    apply IH in H.
    destruct H as (objs & Hobjs & Hs' & Hf' & Ho' & Hreq' & Hfiles').
    exists (obj :: objs).
    split; [constructor; assumption |].
    rewrite Hs', Hf', Ho', Hs, Hf, Ho, Hreq', Hfiles', Hreq, Hfiles.
    rewrite (filter_cons_app is_success obj objs),
      (filter_cons_app is_failed obj objs), (filter_cons_app is_other obj objs).
    rewrite <- !app_assoc. auto.
Qed.

Lemma log_loop (l : list Job) : forall w r w',
  for_each log_job l tt w = (r, w') ->
  r = Ok tt /\ w_requests w' = w_requests w /\ w_files w' = w_files w
  /\ w_draws w' = w_draws w.
Proof.
  induction l as [|job l IH]; simpl; intros w r w' H.
  - unfold ret in H. inversion H; subst. auto.
  - unfold bind at 1 in H. unfold log_job at 1 in H.
    unfold logging_info at 1 in H. cbv iota beta in H.
    apply IH in H. simpl in H. exact H.
Qed.

(** ** The skipped-test loops *)

Lemma test_case_body_Ok url acc tc acc' :
  test_case_body url acc tc = Ok acc' ->
  exists es,
    acc' = acc ++ es
    /\ Forall2 (case_entry url) (List.filter is_skipped [tc]) es.
Proof.
  unfold test_case_body. intros H.
  apply rbind_Ok in H. destruct H as (status & Hstatus & H).
  simpl. unfold is_skipped. rewrite Hstatus.
  destruct (py_eq_str status "skipped").
  - apply rbind_Ok in H. destruct H as (classname & Hclass & H).
    apply rbind_Ok in H. destruct H as (name & Hname & H).
    inversion H; subst acc'.
    exists [(classname, name, url)]. split; [reflexivity |].
    constructor; [| constructor]. unfold case_entry. simpl. auto.
  - inversion H; subst acc'. exists []. rewrite app_nil_r.
    split; [reflexivity | constructor].
Qed.

Lemma test_case_loop url cases : forall acc acc',
  rfold (test_case_body url) cases acc = Ok acc' ->
  exists es,
    acc' = acc ++ es
    /\ Forall2 (case_entry url) (List.filter is_skipped cases) es.
Proof.
  induction cases as [|tc cases IH]; simpl rfold; intros acc acc' H.
  - inversion H; subst. exists []. rewrite app_nil_r.
    split; [reflexivity | constructor].
  - apply rbind_Ok in H. destruct H as (acc1 & H1 & H).
    apply test_case_body_Ok in H1. destruct H1 as (es1 & -> & Hes1).
    apply IH in H. destruct H as (es & -> & Hes).
    exists (es1 ++ es). rewrite app_assoc. split; [reflexivity |].
    rewrite (filter_cons_app is_skipped tc cases).
    apply Forall2_app; assumption.
Qed.

Lemma test_suite_body_Ok pid acc test acc' :
  test_suite_body pid acc test = Ok acc' ->
  exists es, acc' = acc ++ es /\ suite_entries pid test es.
Proof.
  unfold test_suite_body. intros H.
  apply rbind_Ok in H. destruct H as (name & Hname & H).
  apply rbind_Ok in H. destruct H as (url & Hurl & H).
  apply rbind_Ok in H. destruct H as (cases_json & Hcases & H).
  apply rbind_Ok in H. destruct H as (cases & Hiter & H).
  apply test_case_loop in H. destruct H as (es & -> & Hes).
  exists es. split; [reflexivity |].
  exists name, url, cases. unfold cases_of. rewrite Hcases. simpl. auto.
Qed.

Lemma test_suite_loop pid suites : forall acc acc',
  rfold (test_suite_body pid) suites acc = Ok acc' ->
  exists ess,
    Forall2 (suite_entries pid) suites ess
    /\ acc' = acc ++ concat ess.
Proof.
  induction suites as [|test suites IH]; simpl rfold; intros acc acc' H.
  - inversion H; subst. exists []. simpl. rewrite app_nil_r.
    split; [constructor | reflexivity].
  - apply rbind_Ok in H. destruct H as (acc1 & H1 & H).
    apply test_suite_body_Ok in H1. destruct H1 as (es1 & -> & Hes1).
    apply IH in H. destruct H as (ess & Hess & ->).
    exists (es1 :: ess). simpl. rewrite app_assoc.
    split; [constructor; assumption | reflexivity].
Qed.

Lemma is_skipped_true tc :
  is_skipped tc = true <-> py_getitem_key tc "status" = Ok (JStr "skipped").
Proof.
  unfold is_skipped. destruct (py_getitem_key tc "status") as [status|e].
  - rewrite py_eq_str_true. split; [intros -> | intros H; inversion H]; reflexivity.
  - split; discriminate.
Qed.

Lemma case_entry_functional url tc e e' :
  case_entry url tc e -> case_entry url tc e' -> e = e'.
Proof.
  destruct e as [[c n] u], e' as [[c' n'] u']. unfold case_entry. simpl.
  intros (Hc & Hn & ->) (Hc' & Hn' & ->). congruence.
Qed.

Lemma Forall2_In_r {A B} (R : A -> B -> Prop) l l' y :
  Forall2 R l l' -> In y l' -> exists x, In x l /\ R x y.
Proof.
  induction 1 as [|x0 y0 l l' HR _ IH]; simpl; [contradiction |].
  intros [<- | Hin]; [eauto |].
  destruct (IH Hin) as (x & Hx & HRx). eauto.
Qed.

Lemma Forall2_In_l {A B} (R : A -> B -> Prop) l l' x :
  Forall2 R l l' -> In x l -> exists y, In y l' /\ R x y.
Proof.
  induction 1 as [|x0 y0 l l' HR _ IH]; simpl; [contradiction |].
  intros [<- | Hin]; [eauto |].
  destruct (IH Hin) as (y & Hy & HRy). eauto.
Qed.

(** Membership in the entries of one suite. *)
Lemma suite_entries_In pid test es e :
  suite_entries pid test es ->
  In e es <->
  exists cases tc,
    cases_of test = Ok cases /\ In tc cases
    /\ py_getitem_key tc "status" = Ok (JStr "skipped")
    /\ entry_of pid test tc e.
Proof.
  intros (name & url & cases & Hname & Hurl & Hcases & Hall). split.
  - intros Hin.
    destruct (Forall2_In_r _ _ _ _ Hall Hin) as (tc & Htc & Hentry).
    apply filter_In in Htc. destruct Htc as [Htc Hskipped].
    exists cases, tc. rewrite <- is_skipped_true.
    repeat split; try assumption.
    exists name, url. auto.
  - intros (cases' & tc & Hcases' & Htc & Hskipped & Hentry).
    destruct Hentry as (name' & url' & Hname' & Hurl' & Hentry).
    assert (cases' = cases) by congruence. subst cases'.
    assert (name' = name) by congruence. subst name'.
    assert (url' = url) by congruence. subst url'.
    apply is_skipped_true in Hskipped.
    assert (Hin : In tc (List.filter is_skipped cases))
      by (apply filter_In; auto).
    destruct (Forall2_In_l _ _ _ _ Hall Hin) as (e' & He' & Hentry').
    rewrite (case_entry_functional _ _ _ _ Hentry Hentry'). exact He'.
Qed.

(** Membership in the whole table. *)
Lemma skipped_table_In pid suites table e :
  rfold (test_suite_body pid) suites [] = Ok table ->
  In e table <->
  exists test cases tc,
    In test suites /\ cases_of test = Ok cases /\ In tc cases
    /\ py_getitem_key tc "status" = Ok (JStr "skipped")
    /\ entry_of pid test tc e.
Proof.
  intros H. apply test_suite_loop in H. destruct H as (ess & Hess & ->).
  simpl. rewrite in_concat. split.
  - intros (es & Hes & Hin).
    destruct (Forall2_In_r _ _ _ _ Hess Hes) as (test & Htest & Hentries).
    apply (suite_entries_In _ _ _ e) in Hentries.
    apply Hentries in Hin. destruct Hin as (cases & tc & Hin).
    exists test, cases, tc. split; [exact Htest | exact Hin].
  - intros (test & cases & tc & Htest & Hrest).
    destruct (Forall2_In_l _ _ _ _ Hess Htest) as (es & Hes & Hentries).
    exists es. split; [assumption |].
    apply (suite_entries_In _ _ _ e) in Hentries.
    apply Hentries. eauto.
Qed.

(** ** Statements about the job list *)

Lemma Forall_filter {A} (f : A -> bool) l :
  Forall (fun x => f x = true) (List.filter f l).
Proof.
  apply List.Forall_forall. intros x Hx. apply filter_In in Hx.
  destruct Hx as [_ Hx]. exact Hx.
Qed.

(** C2: in a run that reaches the end, every job of the fetched list has
    its [Job] object in the bucket of its status: status exactly
    ["success"] in [success] and kept, exactly ["failed"] in [failed] and
    kept, anything else in [others] with [job_run_status] set to the empty
    string; and each bucket holds only objects of its kind. *)
Theorem jobs_bucketed_by_status w w' :
  main w = (Ok tt, w') ->
  exists L,
    completed w L w'
    /\ (forall job, In job (l_jobs L) ->
         exists status obj,
           py_getitem_key job "status" = Ok status
           /\ job_of job obj
           /\ (status = JStr "success" ->
                In obj (success (l_buckets L))
                /\ job_run_status obj = JStr "success")
           /\ (status = JStr "failed" ->
                In obj (failed (l_buckets L))
                /\ job_run_status obj = JStr "failed")
           /\ (status <> JStr "success" -> status <> JStr "failed" ->
                In obj (others (l_buckets L))
                /\ job_run_status obj = JStr ""))
    /\ Forall (fun obj => job_run_status obj = JStr "success") (success (l_buckets L))
    /\ Forall (fun obj => job_run_status obj = JStr "failed") (failed (l_buckets L))
    /\ Forall (fun obj => job_run_status obj = JStr "") (others (l_buckets L)).
Proof.
  intros Hmain. destruct (main_completed _ _ Hmain) as [L HL].
  exists L. split; [exact HL |].
  destruct HL as (w1 & w2 & w3 & w4 & w5 & w6 & jobs_json & report & suites_json
                  & skipped & template & fdate & pct & _ & _ & _ & _ & Hloop & _).
  apply job_loop in Hloop.
  destruct Hloop as (objs & Hobjs & Hs & Hf & Ho & _). simpl in Hs, Hf, Ho.
  split; [| repeat split].
  - intros job Hjob.
    destruct (Forall2_In_l _ _ _ _ Hobjs Hjob) as (obj & Hobj & Hof).
    pose proof Hof as (status & Hurl & Hstatus & Hname & Hstage & Hrun).
    exists status, obj. split; [assumption |]. split; [assumption |].
    rewrite Hs, Hf, Ho. repeat split.
    + subst status. simpl in Hrun. apply filter_In. split; [assumption |].
      unfold is_success. rewrite Hrun. reflexivity.
    + subst status. exact Hrun.
    + subst status. simpl in Hrun. apply filter_In. split; [assumption |].
      unfold is_failed. rewrite Hrun. reflexivity.
    + subst status. exact Hrun.
    + assert (Es : py_eq_str status "success" = false).
      { destruct (py_eq_str status "success") eqn:E; [| reflexivity].
        apply py_eq_str_true in E. contradiction. }
      assert (Ef : py_eq_str status "failed" = false).
      { destruct (py_eq_str status "failed") eqn:E; [| reflexivity].
        apply py_eq_str_true in E. contradiction. }
      rewrite Es, Ef in Hrun. simpl in Hrun.
      apply filter_In. split; [assumption |].
      unfold is_other, is_success, is_failed. rewrite Hrun. reflexivity.
    + assert (Es : py_eq_str status "success" = false).
      { destruct (py_eq_str status "success") eqn:E; [| reflexivity].
        apply py_eq_str_true in E. contradiction. }
      assert (Ef : py_eq_str status "failed" = false).
      { destruct (py_eq_str status "failed") eqn:E; [| reflexivity].
        apply py_eq_str_true in E. contradiction. }
      rewrite Es, Ef in Hrun. exact Hrun.
  - rewrite Hs. eapply List.Forall_impl; [| apply Forall_filter].
    intros obj Hobj. apply py_eq_str_true in Hobj. exact Hobj.
  - rewrite Hf. eapply List.Forall_impl; [| apply Forall_filter].
    intros obj Hobj. apply py_eq_str_true in Hobj. exact Hobj.
  - rewrite Ho. apply List.Forall_forall. intros obj Hobj.
    apply filter_In in Hobj. destruct Hobj as [Hin Hother].
    destruct (Forall2_In_r _ _ _ _ Hobjs Hin) as (job & _ & Hof).
    destruct Hof as (status & _ & _ & _ & _ & Hrun).
    unfold is_other, is_success, is_failed in Hother.
    destruct (py_eq_str status "success") eqn:Es.
    + simpl in Hrun. rewrite Hrun, Es in Hother. discriminate.
    + destruct (py_eq_str status "failed") eqn:Ef.
      * simpl in Hrun. rewrite Hrun, Ef in Hother.
        rewrite andb_false_r in Hother. discriminate.
      * exact Hrun.
Qed.

(** C3: the job list given to the renderer is the success bucket, then
    the failed bucket, then the others, and each bucket lists its objects
    in the order of the fetched list: with [objs] the objects built from
    the fetched jobs, in fetch order, each bucket is the sublist of [objs]
    of its kind. *)
Theorem all_jobs_order w w' :
  main w = (Ok tt, w') ->
  exists L objs,
    completed w L w'
    /\ Forall2 job_of (l_jobs L) objs
    /\ success (l_buckets L) = List.filter is_success objs
    /\ failed (l_buckets L) = List.filter is_failed objs
    /\ others (l_buckets L) = List.filter is_other objs
    /\ ra_gitlab_tests (l_args L)
       = List.filter is_success objs ++ List.filter is_failed objs
         ++ List.filter is_other objs.
Proof.
  intros Hmain. destruct (main_completed _ _ Hmain) as [L HL].
  pose proof HL as (w1 & w2 & w3 & w4 & w5 & w6 & jobs_json & report & suites_json
                  & skipped & template & fdate & pct & _ & _ & _ & _ & Hloop & _
                  & _ & _ & _ & _ & _ & _ & _ & _ & Hargs & _).
  apply job_loop in Hloop.
  destruct Hloop as (objs & Hobjs & Hs & Hf & Ho & _). simpl in Hs, Hf, Ho.
  exists L, objs. rewrite Hargs. simpl. unfold all_jobs.
  rewrite Hs, Hf, Ho. auto 10.
Qed.

(** ** Statements about the run chart *)

Lemma tuple_for_pid pid t : tuple_for pid t -> tuple_0 t = pid.
Proof.
  intros (n & report & _ & Ht). apply tuple_of_report_Ok in Ht.
  destruct Ht as [Hpid _]. exact Hpid.
Qed.

Lemma Forall2_tuple_0 pids ts :
  Forall2 tuple_for pids ts -> tuple_0 <$> ts = pids.
Proof.
  induction 1 as [|pid t pids ts Ht _ IH]; simpl; [reflexivity |].
  rewrite (tuple_for_pid _ _ Ht). f_equal. exact IH.
Qed.

Lemma fmap_rev {A B} (f : A -> B) (l : list A) : f <$> rev l = rev (f <$> l).
Proof.
  induction l as [|x l IH]; simpl; [reflexivity |].
  rewrite fmap_app, IH. reflexivity.
Qed.

Lemma Forall2_nth_rev {A B} (R : A -> B -> Prop) l l' i x :
  Forall2 R l l' -> l !! i = Some x ->
  exists y, rev l' !! (List.length l - 1 - i)%nat = Some y /\ R x y.
Proof.
  intros Hall Hx.
  destruct (Forall2_lookup_l _ _ _ _ _ Hall Hx) as (y & Hy & HR).
  exists y. split; [| exact HR].
  pose proof (Forall2_length _ _ _ Hall) as Hlen.
  pose proof (lookup_lt_Some _ _ _ Hy) as Hlt.
  rewrite rev_alt. change (rev_append l' []) with (reverse l').
  rewrite reverse_lookup by lia.
  rewrite <- Hy. f_equal. lia.
Qed.

(** C4: the series given to the renderer is the reverse of the tuples
    built in fetch order.  With [tuples] the list built by the loop, one
    tuple per fetched id in the order of the ids, the chart arrays are
    projections of [rev tuples]; the ids read [rev last_50], and the
    tuple of the [i]-th fetched id sits at position [n - 1 - i], so that
    a newest-first fetch order gives an oldest-first series. *)
Theorem run_chart_reversed w w' :
  main w = (Ok tt, w') ->
  exists L,
    completed w L w'
    /\ Forall2 tuple_for (l_last_50 L) (l_tuples L)
    /\ ra_pipeline_run_ids (l_args L) = rev (l_last_50 L)
    /\ ra_number_of_tests (l_args L) = tuple_1 <$> rev (l_tuples L)
    /\ ra_failing_test (l_args L) = tuple_3 <$> rev (l_tuples L)
    /\ ra_skipped_tests (l_args L) = tuple_4 <$> rev (l_tuples L)
    /\ (forall i pid, l_last_50 L !! i = Some pid ->
         exists t,
           rev (l_tuples L) !! (List.length (l_last_50 L) - 1 - i)%nat = Some t
           /\ tuple_for pid t).
Proof.
  intros Hmain. destruct (main_completed _ _ Hmain) as [L HL].
  pose proof HL as (w1 & w2 & w3 & w4 & w5 & w6 & jobs_json & report & suites_json
                  & skipped & template & fdate & pct & _ & _ & _ & _ & _ & _
                  & Hloop & _ & _ & _ & _ & _ & _ & _ & Hargs & _).
  apply run_chart_loop in Hloop.
  destruct Hloop as (ts & Hts & Hall & _). simpl in Hts. subst ts.
  exists L. rewrite Hargs. simpl.
  repeat split; try assumption; try reflexivity.
  - rewrite <- (Forall2_tuple_0 _ _ Hall). apply fmap_rev.
  - intros i pid Hi. eapply Forall2_nth_rev; eassumption.
Qed.

(** ** Statements about the skipped-test table *)

(** The entry of a test case, with its deep link spelled out. *)
Lemma entry_of_link pipeline_id test tc e :
  entry_of pipeline_id test tc e <->
  exists suite_name,
    py_getitem_key test "name" = Ok (JStr suite_name)
    /\ py_getitem_key tc "classname" = Ok (fst (fst e))
    /\ py_getitem_key tc "name" = Ok (snd (fst e))
    /\ snd e = "https://git.esss.dk/dmsc-nightly/dmsc-nightly/-/pipelines/"
               +:+ py_str pipeline_id +:+ "/test_report?job_name="
               +:+ quote_str suite_name.
Proof.
  split.
  - intros (name & url & Hname & Hurl & Hclass & Hcase & Hlink).
    destruct name as [| | | |suite_name| |]; try discriminate Hurl.
    exists suite_name. cbn [job_name_url quote rbind] in Hurl.
    inversion Hurl as [Heq]. rewrite Hlink. auto.
  - intros (suite_name & Hname & Hclass & Hcase & Hlink).
    exists (JStr suite_name). eexists.
    split; [exact Hname |]. split; [reflexivity |].
    split; [exact Hclass |]. split; [exact Hcase | exact Hlink].
Qed.

(** C5: the table given to the renderer has an entry exactly when it is
    the triple of a test case that belongs to a suite of the latest
    pipeline's report and whose status is exactly ["skipped"]: the class
    name and the name of the case, and the deep link of its suite, which
    is the fixed prefix, the id of the latest pipeline,
    [/test_report?job_name=] and the percent-encoded name of the suite. *)
Theorem skipped_table_exact w w' :
  main w = (Ok tt, w') ->
  exists L,
    completed w L w'
    /\ forall e,
        In e (ra_skipped_test_suites (l_args L)) <->
        exists test cases tc suite_name,
          In test (l_test_suites L)
          /\ cases_of test = Ok cases
          /\ In tc cases
          /\ py_getitem_key tc "status" = Ok (JStr "skipped")
          /\ py_getitem_key test "name" = Ok (JStr suite_name)
          /\ py_getitem_key tc "classname" = Ok (fst (fst e))
          /\ py_getitem_key tc "name" = Ok (snd (fst e))
          /\ snd e
             = "https://git.esss.dk/dmsc-nightly/dmsc-nightly/-/pipelines/"
               +:+ py_str (l_pipeline_id L) +:+ "/test_report?job_name="
               +:+ quote_str suite_name.
Proof.
  intros Hmain. destruct (main_completed _ _ Hmain) as [L HL].
  pose proof HL as (w1 & w2 & w3 & w4 & w5 & w6 & jobs_json & report & suites_json
                  & skipped & template & fdate & pct & _ & _ & _ & _ & _ & _
                  & _ & _ & _ & _ & Hskipped & _ & _ & _ & Hargs & _).
  exists L. split; [exact HL |].
  rewrite Hargs. cbn [ra_skipped_test_suites]. intros e.
  rewrite (skipped_table_In _ _ _ e Hskipped). split.
  - intros (test & cases & tc & Htest & Hcases & Htc & Hstatus & Hentry).
    apply entry_of_link in Hentry.
    destruct Hentry as (suite_name & Hname & Hclass & Hcase & Hlink).
    exists test, cases, tc, suite_name. auto 10.
  - intros (test & cases & tc & suite_name & Htest & Hcases & Htc & Hstatus
            & Hname & Hclass & Hcase & Hlink).
    exists test, cases, tc. repeat (split; [assumption |]).
    apply entry_of_link. exists suite_name. auto.
Qed.

(** ** Statements about the deep links *)

Lemma unquote_plain c s :
  Ascii.eqb c "%" = false -> unquote_str (String c s) = String c (unquote_str s).
Proof.
  intros H. destruct s as [|h [|l r]]; simpl; rewrite ?H; reflexivity.
Qed.

Lemma quote_safe_not_percent c : quote_safe c = true -> Ascii.eqb c "%" = false.
Proof.
  destruct (Ascii.eqb c "%") eqn:E; [| reflexivity].
  apply Ascii.eqb_eq in E. subst c. vm_compute. discriminate.
Qed.

(** An escaped byte is [%] and the two upper-case hexadecimal digits of
    its code. *)
Lemma hex_digits_of_byte c :
  hex_value (hex_digit (ascii_code c / 16)) = Some (ascii_code c / 16)
  /\ hex_value (hex_digit (ascii_code c mod 16)) = Some (ascii_code c mod 16)
  /\ ascii_of_N (Z.to_N (16 * (ascii_code c / 16) + ascii_code c mod 16)) = c
  /\ quote_safe (hex_digit (ascii_code c / 16)) = true
  /\ quote_safe (hex_digit (ascii_code c mod 16)) = true.
Proof.
  destruct c as [[] [] [] [] [] [] [] []]; vm_compute; auto.
Qed.

Lemma unquote_escaped h l a b rest :
  hex_value h = Some a -> hex_value l = Some b ->
  unquote_str (String "%" (String h (String l rest)))
  = String (ascii_of_N (Z.to_N (16 * a + b))) (unquote_str rest).
Proof. intros Hh Hl. cbn [unquote_str]. rewrite Hh, Hl. reflexivity. Qed.

Lemma unquote_quote_byte c rest :
  unquote_str (quote_byte c +:+ rest) = String c (unquote_str rest).
Proof.
  unfold quote_byte. destruct (quote_safe c) eqn:E.
  - change (unquote_str (String c rest) = String c (unquote_str rest)).
    apply unquote_plain, quote_safe_not_percent, E.
  - destruct (hex_digits_of_byte c) as (Hh & Hl & Hc & _).
    change (unquote_str
              (String "%" (String (hex_digit (ascii_code c / 16))
                 (String (hex_digit (ascii_code c mod 16)) rest)))
            = String c (unquote_str rest)).
    rewrite (unquote_escaped _ _ _ _ rest Hh Hl), Hc. reflexivity.
Qed.

Lemma unquote_quote s : unquote_str (quote_str s) = s.
Proof.
  induction s as [|c s IH]; [reflexivity |].
  simpl quote_str. rewrite unquote_quote_byte, IH. reflexivity.
Qed.

Lemma string_app_chars s1 s2 :
  list_ascii_of_string (s1 +:+ s2)
  = list_ascii_of_string s1 ++ list_ascii_of_string s2.
Proof. induction s1 as [|c s1 IH]; simpl; [reflexivity | f_equal; exact IH]. Qed.

Lemma quote_str_chars s :
  Forall (fun c => quote_safe c = true \/ c = "%"%char)
         (list_ascii_of_string (quote_str s)).
Proof.
  induction s as [|c s IH]; simpl; [constructor |].
  rewrite string_app_chars. apply Forall_app. split; [| exact IH].
  destruct (quote_safe c) eqn:E.
  - unfold quote_byte. rewrite E. simpl. constructor; [auto | constructor].
  - destruct (hex_digits_of_byte c) as (_ & _ & _ & Hh & Hl).
    unfold quote_byte. rewrite E. simpl.
    constructor; [right; reflexivity |].
    constructor; [left; exact Hh |].
    constructor; [left; exact Hl | constructor].
Qed.


(** ** Statements about the pipeline list *)

Lemma get_pipelines_run w :
  get_pipelines DMSC_NIGHTLY_PROJECT_ID w
  = (let w1 := {| w_requests := w_requests w ++ [pipelines_request];
                  w_draws := w_draws w;
                  w_log := w_log w ++ ["Fetching pipelines from URL: "
                                       +:+ req_url pipelines_request];
                  w_files := w_files w |} in
     (let? response := server (List.length (w_requests w)) pipelines_request in
      let? _ := raise_for_status response in
      let? pipelines := response_json response in
      let? latest_pipeline := py_getitem_0 pipelines in
      let? first := py_slice_to pipelines 50 in
      let? items := py_iter first in
      let? last_50_pipelines :=
        rmap (fun pipeline => py_getitem_key pipeline "id") items in
      Ok (latest_pipeline, last_50_pipelines), w1)).
Proof.
  unfold get_pipelines, bind, logging_info, requests_get, lift, ret.
  cbn [w_requests w_draws w_log w_files].
  change {| req_url := GITLAB_API_URL +:+ "/projects/"
                       +:+ Z_to_string DMSC_NIGHTLY_PROJECT_ID
                       +:+ "/pipelines?ref=main&per_page=50";
            req_authorization := authorization |} with pipelines_request.
  destruct (server (List.length (w_requests w)) pipelines_request) as [resp|e];
    [| reflexivity].
  cbn [rbind].
  destruct (raise_for_status resp) as [[]|e]; [| reflexivity]. cbn [rbind].
  destruct (response_json resp) as [pipelines|e]; [| reflexivity]. cbn [rbind].
  destruct (py_getitem_0 pipelines) as [latest|e]; [| reflexivity]. cbn [rbind].
  destruct (py_slice_to pipelines 50) as [first|e]; [| reflexivity]. cbn [rbind].
  destruct (py_iter first) as [items|e]; [| reflexivity]. cbn [rbind].
  destruct (rmap _ items) as [ids|e]; reflexivity.
Qed.

(** C9: when the pipelines response is the empty list, [pipelines[0]] in
    [get_pipelines] raises [IndexError] and the run ends there: the
    pipelines request is the only one sent, nothing is drawn from the
    random source and no file is written. *)
Theorem empty_pipelines_index_error w resp :
  server (List.length (w_requests w)) pipelines_request = Ok resp ->
  is_error_status (status_code resp) = false ->
  body resp = Some (JArr []) ->
  exists w',
    get_pipelines DMSC_NIGHTLY_PROJECT_ID w = (Err IndexError, w')
    /\ main w = (Err IndexError, w')
    /\ w_requests w' = w_requests w ++ [pipelines_request]
    /\ w_draws w' = w_draws w
    /\ w_files w' = w_files w.
Proof.
  intros Hserver Hstatus Hbody.
  assert (Hget : get_pipelines DMSC_NIGHTLY_PROJECT_ID w
                 = (Err IndexError,
                    {| w_requests := w_requests w ++ [pipelines_request];
                       w_draws := w_draws w;
                       w_log := w_log w ++ ["Fetching pipelines from URL: "
                                            +:+ req_url pipelines_request];
                       w_files := w_files w |})).
  { rewrite get_pipelines_run. cbv zeta. rewrite Hserver. cbn [rbind].
    unfold raise_for_status, response_json. rewrite Hstatus, Hbody.
    reflexivity. }
  eexists. split; [exact Hget |].
  split; [| cbn; auto].
  unfold main, bind at 1. rewrite Hget. reflexivity.
Qed.

(** The converse of [get_pipelines_Ok]: a non-empty list of pipelines that
    all carry an id is accepted. *)
Lemma get_pipelines_total w resp p ps ids :
  server (List.length (w_requests w)) pipelines_request = Ok resp ->
  is_error_status (status_code resp) = false ->
  body resp = Some (JArr (p :: ps)) ->
  rmap (fun pipeline => py_getitem_key pipeline "id") (take 50 (p :: ps)) = Ok ids ->
  exists w', get_pipelines DMSC_NIGHTLY_PROJECT_ID w = (Ok (p, ids), w').
Proof.
  intros Hserver Hstatus Hbody Hids.
  rewrite get_pipelines_run. cbv zeta. rewrite Hserver. cbn [rbind].
  unfold raise_for_status, response_json. rewrite Hstatus, Hbody.
  cbn [rbind py_getitem_0 py_slice_to py_iter]. rewrite Hids. cbn [rbind].
  eauto.
Qed.

Lemma run_chart_length pids w rc w' :
  for_each run_chart_body pids [] w = (Ok rc, w') ->
  List.length rc = List.length pids.
Proof.
  intros H. apply run_chart_loop in H. destruct H as (ts & -> & Hall & _).
  simpl. symmetry. exact (Forall2_length _ _ _ Hall).
Qed.

(** ** Statements about the percentage *)

Lemma truthy_not_zero total :
  py_truthy total = true -> is_zero_number total = false.
Proof.
  destruct total as [|b|n|x|s|l|o]; simpl; try reflexivity.
  - intros ->. reflexivity.
  - intros H. apply negb_true_iff in H. exact H.
  - intros H. apply negb_true_iff in H. exact H.
Qed.

Lemma rbind_Ok_or_Err {A B} (r : result A) (k : A -> result B) e :
  rbind r k = Err e -> (exists a, r = Ok a /\ k a = Err e) \/ r = Err e.
Proof.
  destruct r as [a|e']; simpl; intros H.
  - left. exists a. split; [reflexivity | exact H].
  - right. inversion H. reflexivity.
Qed.

Lemma float_of_int_Err n e : float_of_int n = Err e -> e = OverflowError.
Proof.
  unfold float_of_int. destruct (binary_normalize prec emax n 0 false);
    intros H; inversion H; reflexivity.
Qed.

Lemma int_true_divide_Err a b e :
  b <> 0 -> int_true_divide a b = Err e -> e = OverflowError.
Proof.
  unfold int_true_divide. intros Hb.
  destruct b as [|b|b]; [contradiction | |];
    (destruct a as [|a|a]; [discriminate | |]);
    match goal with |- context [SFdiv ?p ?q ?x ?y] => destruct (SFdiv p q x y) end;
    intros H; inversion H; reflexivity.
Qed.

(** Rounding a positive integer to binary64 never gives zero: the
    right shifts of the rounding keep at least one digit of the mantissa. *)

Lemma iter_pos_nat {A} (f : A -> A) p : forall x,
  SpecFloat.iter_pos f p x = Nat.iter (Pos.to_nat p) f x.
Proof.
  induction p as [p IH|p IH|]; intros x; cbn [SpecFloat.iter_pos].
  - rewrite !IH, Pos2Nat.inj_xI.
    replace (S (2 * Pos.to_nat p)) with (Pos.to_nat p + (Pos.to_nat p + 1))%nat by lia.
    rewrite !Nat.iter_add. reflexivity.
  - rewrite !IH, Pos2Nat.inj_xO.
    replace (2 * Pos.to_nat p)%nat with (Pos.to_nat p + Pos.to_nat p)%nat by lia.
    rewrite Nat.iter_add. reflexivity.
  - reflexivity.
Qed.

Lemma shr_1_digits mrs m :
  shr_m mrs = Z.pos m -> (1 < digits2_pos m)%positive ->
  exists m', shr_m (shr_1 mrs) = Z.pos m'
             /\ Z.pos (digits2_pos m') = Z.pos (digits2_pos m) - 1.
Proof.
  destruct mrs as [mm r s]. cbn [shr_m]. intros -> Hd.
  destruct m as [p|p|]; cbn [shr_1 shr_m digits2_pos] in *.
  - exists p. split; [reflexivity | rewrite Pos2Z.inj_succ; lia].
  - exists p. split; [reflexivity | rewrite Pos2Z.inj_succ; lia].
  - lia.
Qed.

Lemma shr_iter_digits n : forall mrs m,
  shr_m mrs = Z.pos m -> Z.of_nat n < Z.pos (digits2_pos m) ->
  exists m', shr_m (Nat.iter n shr_1 mrs) = Z.pos m'
             /\ Z.pos (digits2_pos m') = Z.pos (digits2_pos m) - Z.of_nat n.
Proof.
  induction n as [|n IH]; intros mrs m Hm Hd.
  - exists m. simpl. split; [exact Hm | lia].
  - rewrite Nat.iter_succ_r.
    destruct (shr_1_digits mrs m Hm) as (m1 & Hm1 & Hd1); [lia |].
    destruct (IH (shr_1 mrs) m1 Hm1) as (m' & Hm' & Hd'); [lia |].
    exists m'. split; [exact Hm' | lia].
Qed.

Lemma shr_fexp_digits m e l :
  SpecFloat.emin prec emax < Z.pos (digits2_pos m) + e ->
  exists m' mrs' e',
    shr_fexp prec emax (Z.pos m) e l = (mrs', e')
    /\ shr_m mrs' = Z.pos m'
    /\ Z.pos (digits2_pos m') + e' = Z.pos (digits2_pos m) + e.
Proof.
  intros Hd. unfold shr_fexp, shr. simpl Zdigits2.
  assert (Hm0 : shr_m (shr_record_of_loc (Z.pos m) l) = Z.pos m)
    by (destruct l as [|[]]; reflexivity).
  destruct (fexp prec emax (Z.pos (digits2_pos m) + e) - e) as [|n|n] eqn:En.
  - exists m. eexists. eexists. split; [reflexivity |]. split; [exact Hm0 | reflexivity].
  - rewrite iter_pos_nat.
    destruct (shr_iter_digits (Pos.to_nat n) _ m Hm0) as (m' & Hm' & Hd').
    { rewrite positive_nat_Z. unfold fexp, SpecFloat.emin, prec, emax in *. lia. }
    exists m'. eexists. eexists. split; [reflexivity |]. split; [exact Hm' |].
    rewrite positive_nat_Z in Hd'. lia.
  - exists m. eexists. eexists. split; [reflexivity |]. split; [exact Hm0 | reflexivity].
Qed.

Lemma digits2_pos_succ m :
  digits2_pos (Pos.succ m) = digits2_pos m
  \/ digits2_pos (Pos.succ m) = Pos.succ (digits2_pos m).
Proof.
  induction m as [p IH|p IH|]; simpl; auto.
  destruct IH as [-> | ->]; auto.
Qed.

Lemma round_nearest_even_pos m l :
  exists m', round_nearest_even (Z.pos m) l = Z.pos m'
             /\ Z.pos (digits2_pos m) <= Z.pos (digits2_pos m').
Proof.
  assert (Hs : exists m', Z.pos m + 1 = Z.pos m'
                          /\ Z.pos (digits2_pos m) <= Z.pos (digits2_pos m')).
  { exists (Pos.succ m). split; [lia |].
    destruct (digits2_pos_succ m) as [-> | ->];
      rewrite ?Pos2Z.inj_succ; lia. }
  assert (Hi : exists m', Z.pos m = Z.pos m'
                          /\ Z.pos (digits2_pos m) <= Z.pos (digits2_pos m'))
    by (exists m; split; [reflexivity | lia]).
  destruct l as [|[]]; cbn [round_nearest_even]; auto.
  destruct (Z.even (Z.pos m)); auto.
Qed.

Lemma binary_round_aux_not_zero sx m e l :
  SpecFloat.emin prec emax < Z.pos (digits2_pos m) + e ->
  match binary_round_aux prec emax sx (Z.pos m) e l with
  | S754_zero _ | S754_nan => False
  | _ => True
  end.
Proof.
  intros Hd. unfold binary_round_aux.
  destruct (shr_fexp_digits m e l Hd) as (m1 & mrs1 & e1 & -> & Hm1 & Hd1).
  rewrite Hm1.
  destruct (round_nearest_even_pos m1 (loc_of_shr_record mrs1)) as (m2 & -> & Hd2).
  destruct (shr_fexp_digits m2 e1 loc_Exact) as (m3 & mrs3 & e3 & -> & Hm3 & Hd3);
    [lia |].
  rewrite Hm3. destruct (e3 <=? emax - prec); exact I.
Qed.

Lemma iter_xO_digits (k : positive) (m : positive) :
  Z.pos (digits2_pos (Pos.iter xO m k))
  = Z.pos (digits2_pos m) + Z.pos k.
Proof.
  rewrite Pos2Nat.inj_iter. rewrite <- (positive_nat_Z k).
  induction (Pos.to_nat k) as [|n IH]; simpl; [lia |].
  rewrite Pos2Z.inj_succ, IH. lia.
Qed.

Lemma binary_round_not_zero sx m :
  match binary_round prec emax sx m 0 with
  | S754_zero _ | S754_nan => False
  | _ => True
  end.
Proof.
  unfold binary_round, shl_align.
  destruct (fexp prec emax (Z.pos (digits2_pos m) + 0) - 0) as [|d|d] eqn:Ed.
  - apply binary_round_aux_not_zero. unfold SpecFloat.emin, prec, emax. lia.
  - apply binary_round_aux_not_zero. unfold SpecFloat.emin, prec, emax. lia.
  - apply binary_round_aux_not_zero. rewrite iter_xO_digits.
    unfold fexp, SpecFloat.emin, prec, emax in *. lia.
Qed.

Lemma float_of_int_not_zero n x :
  n <> 0 -> float_of_int n = Ok x -> float_is_zero x = false.
Proof.
  unfold float_of_int, binary_normalize. intros Hn.
  destruct n as [|m|m]; [contradiction | |];
    match goal with
    | |- context [binary_round prec emax ?s m 0] =>
        pose proof (binary_round_not_zero s m) as Hr;
        destruct (binary_round prec emax s m 0)
    end;
    try contradiction; intros H; inversion H; reflexivity.
Qed.

Lemma to_float_not_zero v n x :
  py_truthy v = true -> as_number v = Some n -> to_float n = Ok x ->
  float_is_zero x = false.
Proof.
  destruct v as [|b|k|f|s|l|o]; simpl; intros Ht Hn; inversion Hn; subst n;
    simpl; intros Hx.
  - subst b. apply (float_of_int_not_zero 1); [lia | exact Hx].
  - apply negb_true_iff in Ht. apply Z.eqb_neq in Ht.
    apply (float_of_int_not_zero k); assumption.
  - inversion Hx; subst x. apply negb_true_iff in Ht. exact Ht.
Qed.

Lemma to_float_Err n e : to_float n = Err e -> e = OverflowError.
Proof. destruct n; simpl; [apply float_of_int_Err | discriminate]. Qed.

(** A truthy denominator never makes [/] raise [ZeroDivisionError]. *)
Lemma py_truediv_no_zero_division failed total :
  py_truthy total = true ->
  py_truediv failed total <> Err ZeroDivisionError.
Proof.
  intros Ht H. unfold py_truediv in H.
  destruct (as_number failed) as [x|] eqn:Ex; [| destruct (as_number total); discriminate H].
  destruct (as_number total) as [y|] eqn:Ey; [| destruct x; discriminate H].
  assert (Hfloat : (let? fx := to_float x in
                    let? fy := to_float y in
                    if float_is_zero fy then Err ZeroDivisionError
                    else Ok (SFdiv prec emax fx fy)) <> Err ZeroDivisionError).
  { intros H'. apply rbind_Ok_or_Err in H'. destruct H' as [(fx & _ & H') | H'].
    - apply rbind_Ok_or_Err in H'. destruct H' as [(fy & Hfy & H') | H'].
      + rewrite (to_float_not_zero _ _ _ Ht Ey Hfy) in H'. discriminate H'.
      + apply to_float_Err in H'. discriminate H'.
    - apply to_float_Err in H'. discriminate H'. }
  destruct x as [a|fa]; [| exact (Hfloat H)].
  destruct y as [b|fb]; [| exact (Hfloat H)].
  apply int_true_divide_Err in H; [discriminate H |].
  intros ->. destruct total as [|c|k|f|s|l|o]; simpl in Ey, Ht; inversion Ey.
  - subst c. discriminate.
  - subst k. discriminate Ht.
Qed.

(** The guarded percentage never raises [ZeroDivisionError], whatever the
    two counts are. *)
Lemma failed_percentage_no_zero_division failed total :
  failed_percentage failed total <> Err ZeroDivisionError.
Proof.
  unfold failed_percentage.
  destruct (py_truthy total) eqn:Ht; intros H; [| discriminate H].
  apply rbind_Ok_or_Err in H. destruct H as [(q & _ & H) | H].
  - unfold py_mul_float_int in H. apply rbind_Ok_or_Err in H.
    destruct H as [(f & _ & H) | H]; [discriminate H |].
    apply float_of_int_Err in H. discriminate H.
  - exact (py_truediv_no_zero_division _ _ Ht H).
Qed.

(** C1: the percentage of lines 97-99 is [failed / total * 100] when the
    total is truthy, which for an [int] means not zero, and then the total
    is not a zero denominator; it is exactly [0.0], with nothing divided,
    when the total is falsy, which for an [int] means zero; so it never
    raises [ZeroDivisionError].  Every tuple of a finished history loop
    carries that percentage of the counts of its report. *)
Theorem failed_percentage_guarded :
  (forall failed total,
     (py_truthy total = true ->
      is_zero_number total = false
      /\ failed_percentage failed total
         = (let? q := py_truediv failed total in py_mul_float_int q 100))
     /\ (py_truthy total = false ->
         failed_percentage failed total = Ok (S754_zero false))
     /\ failed_percentage failed total <> Err ZeroDivisionError)
  /\ (forall n, py_truthy (JInt n) = true <-> n <> 0)
  /\ (forall pids w tuples w',
        for_each run_chart_body pids [] w = (Ok tuples, w') ->
        Forall2
          (fun pid t =>
             tuple_for pid t
             /\ failed_percentage (tuple_3 t) (tuple_1 t) = Ok (tuple_2 t))
          pids tuples).
Proof.
  split; [| split].
  - intros failed total. split; [| split].
    + intros Ht. split; [apply truthy_not_zero, Ht |].
      unfold failed_percentage. rewrite Ht. reflexivity.
    + intros Ht. unfold failed_percentage. rewrite Ht. reflexivity.
    + apply failed_percentage_no_zero_division.
  - intros n. simpl. rewrite negb_true_iff. apply Z.eqb_neq.
  - intros pids w tuples w' H.
    apply run_chart_loop in H. destruct H as (ts & -> & Hall & _).
    simpl. eapply Forall2_impl; [exact Hall |].
    intros pid t Ht. split; [exact Ht |].
    destruct Ht as (n & report & _ & Ht).
    apply tuple_of_report_Ok in Ht.
    destruct Ht as (_ & _ & _ & _ & Hpct). exact Hpct.
Qed.

(** ** Runs that reach the end *)

Lemma fetch_run url auth w j :
  served (List.length (w_requests w))
         {| req_url := url; req_authorization := auth |} j ->
  (let! response := requests_get url auth in
   lift (raise_for_status response) ;;
   lift (response_json response)) w
  = (Ok j, sent {| req_url := url; req_authorization := auth |} w).
Proof.
  intros (resp & Hserver & Hstatus & Hbody).
  unfold bind, requests_get, lift, raise_for_status, response_json.
  rewrite Hserver, Hstatus, Hbody. reflexivity.
Qed.

Lemma get_test_report_run pid w report :
  served (List.length (w_requests w)) (test_report_request pid) report ->
  get_test_report DMSC_NIGHTLY_PROJECT_ID pid w
  = (Ok report, sent (test_report_request pid) w).
Proof. apply fetch_run. Qed.

Lemma get_jobs_run pid w jobs :
  served (List.length (w_requests w)) (jobs_request pid) jobs ->
  get_jobs DMSC_NIGHTLY_PROJECT_ID pid w = (Ok jobs, sent (jobs_request pid) w).
Proof. apply fetch_run. Qed.

Lemma job_body_total b job w :
  job_ok job ->
  exists b' w', job_body b job w = (Ok b', w').
Proof.
  intros (web_url & status & name & stage & Hurl & Hstatus & Hname & Hstage).
  destruct (random_choices_Ok TEAMS 2 w) as (picked & Hpicked & _).
  unfold job_body, bind. rewrite Hpicked. unfold lift.
  rewrite Hurl, Hstatus, Hname, Hstage.
  destruct (py_eq_str status "success"); [unfold ret; eauto |].
  destruct (py_eq_str status "failed"); unfold ret; eauto.
Qed.

Lemma job_loop_total jobs :
  Forall job_ok jobs ->
  forall b w, exists b' w', for_each job_body jobs b w = (Ok b', w').
Proof.
  induction 1 as [|job jobs Hjob _ IH]; intros b w; simpl.
  - unfold ret. eauto.
  - destruct (job_body_total b job w Hjob) as (b1 & w1 & Hbody).
    unfold bind. rewrite Hbody. apply IH.
Qed.

Lemma run_chart_body_run rc pid w report t :
  served (List.length (w_requests w)) (test_report_request pid) report ->
  tuple_of_report pid report = Ok t ->
  run_chart_body rc pid w = (Ok (rc ++ [t]), sent (test_report_request pid) w).
Proof.
  intros Hserved Ht. unfold run_chart_body, bind.
  rewrite (get_test_report_run _ _ _ Hserved). unfold lift.
  unfold tuple_of_report in Ht.
  apply rbind_Ok in Ht. destruct Ht as (total & Htotal & Ht).
  apply rbind_Ok in Ht. destruct Ht as (nfailed & Hfailed & Ht).
  apply rbind_Ok in Ht. destruct Ht as (nskipped & Hskipped & Ht).
  apply rbind_Ok in Ht. destruct Ht as (pct & Hpct & Ht).
  rewrite Htotal, Hfailed, Hskipped, Hpct. inversion Ht. reflexivity.
Qed.

Lemma run_chart_loop_total pids : forall rc w,
  (forall i pid, pids !! i = Some pid ->
     exists report t,
       served (List.length (w_requests w) + i) (test_report_request pid) report
       /\ tuple_of_report pid report = Ok t) ->
  exists rc' w', for_each run_chart_body pids rc w = (Ok rc', w').
Proof.
  induction pids as [|pid pids IH]; intros rc w Hall; simpl.
  - unfold ret. eauto.
  - destruct (Hall 0%nat pid eq_refl) as (report & t & Hserved & Ht).
    rewrite Nat.add_0_r in Hserved.
    unfold bind. rewrite (run_chart_body_run rc _ _ _ _ Hserved Ht).
    apply IH. intros i pid' Hi.
    destruct (Hall (S i) pid' Hi) as (report' & t' & Hserved' & Ht').
    exists report', t'. split; [| exact Ht'].
    unfold sent. simpl. rewrite length_app. simpl.
    replace (List.length (w_requests w) + 1 + i)%nat
      with (List.length (w_requests w) + S i)%nat by lia.
    exact Hserved'.
Qed.

Lemma test_case_loop_total url cases :
  Forall case_ok cases ->
  forall acc, exists acc', rfold (test_case_body url) cases acc = Ok acc'.
Proof.
  induction 1 as [|tc cases (status & Hstatus & Hskipped) _ IH]; intros acc; simpl.
  - eauto.
  - unfold test_case_body at 1. rewrite Hstatus. cbn [rbind].
    destruct (py_eq_str status "skipped").
    + destruct (Hskipped eq_refl) as (classname & name & Hclass & Hname).
      rewrite Hclass, Hname. cbn [rbind]. apply IH.
    + cbn [rbind]. apply IH.
Qed.

Lemma test_suite_loop_total pid suites :
  Forall suite_ok suites ->
  forall acc, exists acc', rfold (test_suite_body pid) suites acc = Ok acc'.
Proof.
  induction 1 as [|test suites (name & cases & Hname & Hcases & Hok) _ IH];
    intros acc; simpl.
  - eauto.
  - unfold test_suite_body at 1. rewrite Hname. cbn [rbind job_name_url quote].
    unfold cases_of in Hcases.
    destruct (py_getitem_key test "test_cases") as [cases_json|e];
      [| discriminate Hcases].
    cbn [rbind] in Hcases |- *. rewrite Hcases. cbn [rbind].
    destruct (test_case_loop_total
                ("https://git.esss.dk/dmsc-nightly/dmsc-nightly/-/pipelines/"
                 +:+ py_str pid +:+ "/test_report?job_name=" +:+ quote_str name)
                cases Hok acc) as (acc1 & Hacc1).
    rewrite Hacc1. cbn [rbind]. apply IH.
Qed.

(** A run reaches the end when the three kinds of responses are readable:
    a non-empty pipeline list with ids and a date, a readable job list, a
    report with counts for every fetched id, readable suites in the latest
    report, and a template that renders. *)
Lemma main_total w p ps ids pipeline_id jobs_json jobs report suites_json suites
    formatted_date template :
  served (List.length (w_requests w)) pipelines_request (JArr (p :: ps)) ->
  rmap (fun pipeline => py_getitem_key pipeline "id") (take 50 (p :: ps)) = Ok ids ->
  py_getitem_key p "id" = Ok pipeline_id ->
  served (List.length (w_requests w) + 1) (jobs_request pipeline_id) jobs_json ->
  py_iter jobs_json = Ok jobs ->
  Forall job_ok jobs ->
  (forall i pid, ids !! i = Some pid ->
     exists r t,
       served (List.length (w_requests w) + 2 + i) (test_report_request pid) r
       /\ tuple_of_report pid r = Ok t) ->
  served (List.length (w_requests w) + 2 + List.length ids)
         (test_report_request pipeline_id) report ->
  py_getitem_key report "test_suites" = Ok suites_json ->
  py_iter suites_json = Ok suites ->
  Forall suite_ok suites ->
  format_date p = Ok formatted_date ->
  get_template "dashboard.html" = Ok template ->
  (forall args, exists content, template args = Ok content) ->
  exists w', main w = (Ok tt, w').
Proof.
  intros (resp & Hserver & Hstatus & Hbody) Hids Hid Hjobs Hiter Hjobs_ok Hreports
         Hreport Hsuites Hsuites_iter Hsuites_ok Hdate Htemplate Hrender.
  unfold main. unfold bind at 1.
  rewrite get_pipelines_run. cbv zeta. rewrite Hserver. cbn [rbind].
  unfold raise_for_status, response_json. rewrite Hstatus, Hbody.
  cbn [rbind py_getitem_0 py_slice_to py_iter]. rewrite Hids. cbn [rbind].
  set (w1 := {| w_requests := w_requests w ++ [pipelines_request];
                w_draws := w_draws w;
                w_log := w_log w ++ ["Fetching pipelines from URL: "
                                     +:+ req_url pipelines_request];
                w_files := w_files w |}).
  assert (Hlen1 : List.length (w_requests w1) = (List.length (w_requests w) + 1)%nat)
    by (subst w1; simpl; rewrite length_app; reflexivity).
  unfold bind at 1. unfold lift at 1. rewrite Hid.
  unfold bind at 1. rewrite <- Hlen1 in Hjobs.
  rewrite (get_jobs_run _ _ _ Hjobs).
  set (w2 := sent (jobs_request pipeline_id) w1).
  assert (Hlen2 : List.length (w_requests w2) = (List.length (w_requests w) + 2)%nat)
    by (subst w2; unfold sent; cbn [w_requests]; rewrite length_app, Hlen1;
        simpl; lia).
  unfold bind at 1. unfold lift at 1. rewrite Hiter.
  destruct (job_loop_total jobs Hjobs_ok
              {| success := []; failed := []; others := [] |} w2)
    as (b & w3 & Hloop).
  unfold bind at 1. rewrite Hloop.
  pose proof (job_loop _ _ _ _ _ Hloop) as (_ & _ & _ & _ & _ & Hreq3 & _).
  destruct (for_each log_job (success b ++ failed b ++ others b) tt w3)
    as [rlog w4] eqn:Hlog.
  pose proof (log_loop _ _ _ _ Hlog) as (-> & Hreq4 & _).
  unfold bind at 1. rewrite Hlog.
  assert (Hlen4 : List.length (w_requests w4) = (List.length (w_requests w) + 2)%nat)
    by (rewrite Hreq4, Hreq3; exact Hlen2).
  destruct (run_chart_loop_total ids [] w4) as (tuples & w5 & Hchart).
  { intros i pid Hi. rewrite Hlen4. apply Hreports. exact Hi. }
  unfold bind at 1. rewrite Hchart.
  pose proof (run_chart_loop _ _ _ _ _ Hchart) as (ts & Hts & Hall & Hreq5 & _).
  simpl in Hts. subst ts.
  assert (Hlen5 : List.length (w_requests w5)
                  = (List.length (w_requests w) + 2 + List.length ids)%nat)
    by (rewrite Hreq5, length_app, length_fmap, Hlen4; reflexivity).
  rewrite <- Hlen5 in Hreport.
  unfold bind at 1. rewrite (get_test_report_run _ _ _ Hreport).
  unfold bind at 1. unfold lift at 1. rewrite Hsuites.
  unfold bind at 1. unfold lift at 1. rewrite Hsuites_iter.
  destruct (test_suite_loop_total pipeline_id suites Hsuites_ok [])
    as (skipped & Hskipped).
  unfold bind at 1. unfold lift at 1. rewrite Hskipped.
  unfold bind at 1. unfold lift at 1. rewrite Htemplate.
  unfold bind at 1. unfold lift at 1. rewrite Hdate.
  assert (Hpct : exists text, format_percentage (rev tuples) = Ok text).
  { unfold format_percentage, py_last.
    destruct (last (tuple_2 <$> rev tuples)) as [x|] eqn:E; [simpl; eauto |].
    apply last_None, fmap_nil_inv in E.
    apply (f_equal (@List.length _)) in E. rewrite length_rev in E.
    rewrite <- (Forall2_length _ _ _ Hall) in E.
    pose proof (rmap_length _ _ _ Hids) as Hlen. rewrite length_take in Hlen.
    simpl in Hlen, E. lia. }
  destruct Hpct as [text Hpct].
  unfold bind at 1. unfold lift at 1. rewrite Hpct.
  match goal with
  | |- context [template ?args] => destruct (Hrender args) as [content Hcontent]
  end.
  unfold bind at 1. unfold lift at 1. rewrite Hcontent.
  unfold bind, write_file, logging_info. eauto.
Qed.

(** ** The scenario of one pipeline *)

Lemma served_functional n req j j' : served n req j -> served n req j' -> j = j'.
Proof.
  intros (resp & Hs & _ & Hb) (resp' & Hs' & _ & Hb'). congruence.
Qed.

(** What a run of the scenario gives to the renderer, when it reaches the
    end. *)
Lemma scenario_values w w' (p : gmap string json) :
  main w = (Ok tt, w') ->
  served (List.length (w_requests w)) pipelines_request (JArr [JObj p]) ->
  p !! "id" = Some (JInt 42) ->
  p !! "updated_at" = Some (JStr "2024-01-02T03:04:05Z") ->
  (forall n report,
     served n (test_report_request (JInt 42)) report ->
     py_getitem_key report "total_count" = Ok (JInt 10)
     /\ py_getitem_key report "failed_count" = Ok (JInt 2)
     /\ py_getitem_key report "skipped_count" = Ok (JInt 1)) ->
  exists L,
    completed w L w'
    /\ ra_failed_job_percentage (l_args L) = "20.00%"
    /\ ra_pipeline_end_time (l_args L) = "January 02, 2024 03:04 AM UTC"
    /\ w_files w' !! "render/rendered.html" = Some (l_content L).
Proof.
  intros Hmain Hpipelines Hid Hupdated Hreport.
  destruct (main_completed _ _ Hmain) as [L HL].
  exists L. split; [exact HL |].
  destruct HL as (w1 & w2 & w3 & w4 & w5 & w6 & jobs_json & report & suites_json
                  & skipped & template & fdate & pct & Hget & _ & _ & _ & _ & _
                  & Hloop & _ & _ & _ & _ & _ & Hdate & Hpct & Hargs & _ & Hw').
  apply get_pipelines_Ok in Hget.
  destruct Hget as (rest & Hserved & Hids & _).
  pose proof (served_functional _ _ _ _ Hserved Hpipelines) as Heq.
  inversion Heq as [[Hlatest Hrest]]. clear Heq. subst rest.
  rewrite Hlatest in Hids, Hdate.
  simpl in Hids. rewrite Hid in Hids. simpl in Hids.
  inversion Hids as [Hlast]. clear Hids.
  rewrite <- Hlast in Hloop.
  apply run_chart_loop in Hloop. destruct Hloop as (ts & Hts & Hall & _).
  simpl in Hts. subst ts.
  inversion Hall as [|pid t pids ts Ht Hnil Hp Ht']. subst.
  inversion Hnil. subst. clear Hall Hnil.
  destruct Ht as (n & r & Hr & Ht).
  destruct (Hreport _ _ Hr) as (Htotal & Hfailed & Hskipped).
  unfold tuple_of_report in Ht. rewrite Htotal, Hfailed, Hskipped in Ht.
  vm_compute in Ht. inversion Ht as [Ht0]. clear Ht.
  rewrite <- Ht', <- Ht0 in Hpct. vm_compute in Hpct.
  unfold format_date in Hdate. simpl py_getitem_key in Hdate.
  rewrite Hupdated in Hdate. vm_compute in Hdate.
  rewrite Hargs. simpl.
  inversion Hpct. inversion Hdate.
  split; [reflexivity |]. split; [reflexivity |]. apply lookup_insert_eq.
Qed.


(** ** The chart arrays of a run *)

(** C10: the pipelines response is a non-empty list whose first fifty
    entries carry an id, and the other responses, the template and the
    date are readable.  Then the run reaches the end: [get_pipelines]
    returns the first entry as the latest pipeline and the ids in order,
    the id of the latest pipeline is the first of them, the history loop
    builds one tuple per id, the four arrays given to the renderer have
    that same length, which is not zero, and [percentage_data[-1]]
    returns the value that is printed as the percentage. *)
Theorem chart_arrays_nonempty w p ps ids pipeline_id jobs_json jobs report
    suites_json suites formatted_date template :
  served (List.length (w_requests w)) pipelines_request (JArr (p :: ps)) ->
  rmap (fun pipeline => py_getitem_key pipeline "id") (take 50 (p :: ps)) = Ok ids ->
  py_getitem_key p "id" = Ok pipeline_id ->
  served (List.length (w_requests w) + 1) (jobs_request pipeline_id) jobs_json ->
  py_iter jobs_json = Ok jobs ->
  Forall job_ok jobs ->
  (forall i pid, ids !! i = Some pid ->
     exists r t,
       served (List.length (w_requests w) + 2 + i) (test_report_request pid) r
       /\ tuple_of_report pid r = Ok t) ->
  served (List.length (w_requests w) + 2 + List.length ids)
         (test_report_request pipeline_id) report ->
  py_getitem_key report "test_suites" = Ok suites_json ->
  py_iter suites_json = Ok suites ->
  Forall suite_ok suites ->
  format_date p = Ok formatted_date ->
  get_template "dashboard.html" = Ok template ->
  (forall args, exists content, template args = Ok content) ->
  exists w' L,
    main w = (Ok tt, w')
    /\ completed w L w'
    /\ l_pipeline L = p
    /\ l_last_50 L = ids
    /\ head (l_last_50 L) = Some (l_pipeline_id L)
    /\ List.length (l_last_50 L) = Nat.min 50 (List.length (p :: ps))
    /\ List.length (l_tuples L) = List.length (l_last_50 L)
    /\ List.length (ra_pipeline_run_ids (l_args L)) = List.length (l_last_50 L)
    /\ List.length (ra_number_of_tests (l_args L)) = List.length (l_last_50 L)
    /\ List.length (ra_failing_test (l_args L)) = List.length (l_last_50 L)
    /\ List.length (ra_skipped_tests (l_args L)) = List.length (l_last_50 L)
    /\ (0 < List.length (l_last_50 L))%nat
    /\ exists x,
        py_last (tuple_2 <$> rev (l_tuples L)) = Ok x
        /\ ra_failed_job_percentage (l_args L) = format_2f x +:+ "%".
Proof.
  intros Hpipelines Hids Hid Hjobs Hiter Hjobs_ok Hreports Hreport Hsuites
         Hsuites_iter Hsuites_ok Hdate Htemplate Hrender.
  destruct (main_total w p ps ids pipeline_id jobs_json jobs report suites_json
              suites formatted_date template) as [w' Hmain]; try assumption.
  destruct (main_completed _ _ Hmain) as [L HL].
  exists w', L. split; [exact Hmain |]. split; [exact HL |].
  destruct HL as (w1 & w2 & w3 & w4 & w5 & w6 & jobs_json' & report' & suites_json'
                  & skipped & template' & fdate & pct & Hget & Hid' & _ & _ & _ & _
                  & Hchart & _ & _ & _ & _ & _ & _ & Hpct & Hargs & _ & _).
  apply get_pipelines_Ok in Hget.
  destruct Hget as (rest & Hserved & Hids' & _).
  pose proof (served_functional _ _ _ _ Hserved Hpipelines) as Heq.
  injection Heq as Hlatest Hrest.
  rewrite Hlatest, Hrest, Hids in Hids'. injection Hids' as Hlast.
  rewrite Hlatest, Hid in Hid'. injection Hid' as Hpid.
  pose proof (rmap_length _ _ _ Hids) as Hlen. rewrite length_take in Hlen.
  pose proof (run_chart_length _ _ _ _ Hchart) as Htuples.
  assert (Hhead : head ids = Some pipeline_id).
  { simpl take in Hids. simpl rmap in Hids.
    apply rbind_Ok in Hids. destruct Hids as (id0 & Hid0 & Hids).
    apply rbind_Ok in Hids. destruct Hids as (ids' & _ & Hids).
    injection Hids as Hids. rewrite <- Hids. simpl. congruence. }
  rewrite Hargs.
  cbn [ra_pipeline_run_ids ra_number_of_tests ra_failing_test ra_skipped_tests
       ra_failed_job_percentage].
  rewrite !length_fmap, !length_rev, Htuples, <- Hlast, <- Hpid.
  split; [exact Hlatest |]. split; [reflexivity |]. split; [exact Hhead |].
  split; [exact Hlen |]. do 5 (split; [reflexivity |]).
  split; [rewrite Hlen; simpl; lia |].
  unfold format_percentage in Hpct.
  destruct (py_last (tuple_2 <$> rev (l_tuples L))) as [x|e]; [| discriminate Hpct].
  exists x. split; [reflexivity |]. cbn [rbind] in Hpct.
  injection Hpct as Hpct. rewrite Hpct. reflexivity.
Qed.

(** ** Error statuses abort the run *)

(** Statements that send nothing and write nothing. *)
Lemma strict_quiet ro {A} (m : M A) :
  (forall w r w', m w = (r, w') ->
                  w_requests w' = w_requests w /\ w_files w' = w_files w) ->
  strict ro m.
Proof.
  intros Hm w r w' Hrun. destruct (Hm _ _ _ Hrun) as [Hreq Hfiles].
  exists []. rewrite app_nil_r.
  split; [exact Hreq |]. split; [intros _; exact Hfiles |].
  intros k req resp Hk. discriminate Hk.
Qed.

Lemma strict_lift ro {A} (r : result A) : strict ro (lift r).
Proof.
  apply strict_quiet. unfold lift. intros w r' w' H. inversion H; subst. auto.
Qed.

Lemma strict_ret ro {A} (a : A) : strict ro (ret a).
Proof.
  apply strict_quiet. unfold ret. intros w r' w' H. inversion H; subst. auto.
Qed.

Lemma strict_logging_info ro msg : strict ro (logging_info msg).
Proof.
  apply strict_quiet. unfold logging_info. intros w r' w' H.
  inversion H; subst. auto.
Qed.

Lemma strict_bind ro {A B} (m : M A) (k : A -> M B) :
  strict true m -> (forall a, strict ro (k a)) -> strict ro (bind m k).
Proof.
  intros Hm Hk w r w' Hrun.
  apply bind_cases in Hrun.
  destruct Hrun as [(a & w1 & Hrun1 & Hrun2) | (e & Hrun1 & ->)].
  - destruct (Hm _ _ _ Hrun1) as (new1 & Hreq1 & Hfiles1 & Hbad1).
    destruct (Hk a _ _ _ Hrun2) as (new2 & Hreq2 & Hfiles2 & Hbad2).
    exists (new1 ++ new2).
    split; [rewrite Hreq2, Hreq1, app_assoc; reflexivity |].
    split.
    + intros Hro. rewrite Hfiles2 by exact Hro. apply Hfiles1. left. reflexivity.
    + intros i req resp Hi Hserver Hstatus.
      destruct (lookup_app_Some new1 new2 i req) as [Hcases _].
      destruct (Hcases Hi) as [Hi1 | [Hlen Hi2]].
      * destruct (Hbad1 _ _ _ Hi1 Hserver Hstatus) as [Habs _]. discriminate Habs.
      * rewrite Hreq1, length_app in Hbad2.
        replace (List.length (w_requests w) + i)%nat
          with (List.length (w_requests w) + List.length new1
                + (i - List.length new1))%nat in Hserver by lia.
        destruct (Hbad2 _ _ _ Hi2 Hserver Hstatus) as [-> Hlast].
        split; [reflexivity |]. rewrite length_app. lia.
  - destruct (Hm _ _ _ Hrun1) as (new1 & Hreq1 & Hfiles1 & Hbad1).
    exists new1. split; [exact Hreq1 |].
    split; [intros _; apply Hfiles1; left; reflexivity |].
    intros i req resp Hi Hserver Hstatus.
    destruct (Hbad1 _ _ _ Hi Hserver Hstatus) as [Herr Hlast].
    inversion Herr. auto.
Qed.

(** One GET with its status check, followed by [k]. *)
Lemma strict_fetch ro {B} url auth (k : response -> M B) :
  (forall resp, strict ro (k resp)) ->
  strict ro (let! response := requests_get url auth in
             lift (raise_for_status response) ;;
             k response).
Proof.
  intros Hk w r w' Hrun.
  unfold bind at 1 in Hrun. unfold requests_get in Hrun.
  set (req := {| req_url := url; req_authorization := auth |}) in *.
  destruct (server (List.length (w_requests w)) req) as [resp|e] eqn:Hserver.
  - unfold bind at 1 in Hrun. unfold lift at 1 in Hrun.
    unfold raise_for_status in Hrun.
    destruct (is_error_status (status_code resp)) eqn:Hstatus.
    + inversion Hrun; subst r w'. exists [req]. simpl.
      split; [reflexivity |]. split; [reflexivity |].
      intros i req' resp' Hi _ _. destruct i; [auto | discriminate Hi].
    + destruct (Hk resp _ _ _ Hrun) as (new & Hreq & Hfiles & Hbad).
      simpl in Hreq, Hfiles, Hbad.
      exists (req :: new).
      split; [rewrite Hreq, <- app_assoc; reflexivity |].
      split; [exact Hfiles |].
      intros i req' resp' Hi Hserver' Hstatus'.
      destruct i as [|i]; simpl in Hi.
      * inversion Hi; subst req'. rewrite Nat.add_0_r in Hserver'.
        rewrite Hserver in Hserver'. inversion Hserver'; subst resp'.
        rewrite Hstatus in Hstatus'. discriminate Hstatus'.
      * rewrite length_app in Hbad. simpl in Hbad.
        replace (List.length (w_requests w) + S i)%nat
          with (List.length (w_requests w) + 1 + i)%nat in Hserver' by lia.
        destruct (Hbad _ _ _ Hi Hserver' Hstatus') as [-> Hlast].
        split; [reflexivity |]. simpl. lia.
  - inversion Hrun; subst r w'. exists [req]. simpl.
    split; [reflexivity |]. split; [reflexivity |].
    intros i req' resp' Hi Hserver' _.
    destruct i; [| discriminate Hi]. inversion Hi; subst req'.
    rewrite Nat.add_0_r in Hserver'. rewrite Hserver in Hserver'.
    discriminate Hserver'.
Qed.

Lemma strict_for_each {A S} (body : S -> A -> M S) l :
  (forall s x, strict true (body s x)) ->
  forall s, strict true (for_each body l s).
Proof.
  intros Hbody. induction l as [|x l IH]; intros s; simpl.
  - apply strict_ret.
  - apply strict_bind; [apply Hbody | exact IH].
Qed.

Lemma strict_random_choices population k : strict true (random_choices population k).
Proof.
  apply strict_quiet. intros w r w' H.
  destruct (random_choices_Ok population k w) as (picked & Heq & _).
  rewrite Heq in H. inversion H; subst. auto.
Qed.

Lemma strict_get_test_report pid :
  strict true (get_test_report DMSC_NIGHTLY_PROJECT_ID pid).
Proof. apply strict_fetch. intros resp. apply strict_lift. Qed.

Lemma strict_get_jobs pid : strict true (get_jobs DMSC_NIGHTLY_PROJECT_ID pid).
Proof. apply strict_fetch. intros resp. apply strict_lift. Qed.

Lemma strict_get_pipelines : strict true (get_pipelines DMSC_NIGHTLY_PROJECT_ID).
Proof.
  unfold get_pipelines.
  apply strict_bind; [apply strict_logging_info | intros _].
  apply strict_fetch. intros resp.
  repeat (apply strict_bind; [apply strict_lift | intros ?]).
  apply strict_ret.
Qed.

Lemma strict_job_body b job : strict true (job_body b job).
Proof.
  unfold job_body.
  apply strict_bind; [apply strict_random_choices | intros picked].
  repeat (apply strict_bind; [apply strict_lift | intros ?]).
  destruct (py_eq_str _ "success"); [apply strict_ret |].
  apply strict_bind; [apply strict_lift | intros ?].
  destruct (py_eq_str _ "failed"); apply strict_ret.
Qed.

Lemma strict_run_chart_body rc pid : strict true (run_chart_body rc pid).
Proof.
  unfold run_chart_body.
  apply strict_bind; [apply strict_get_test_report | intros report].
  repeat (apply strict_bind; [apply strict_lift | intros ?]).
  apply strict_ret.
Qed.

Lemma strict_main : strict false main.
Proof.
  unfold main.
  apply strict_bind; [apply strict_get_pipelines | intros [pipeline last_50]].
  apply strict_bind; [apply strict_lift | intros pipeline_id].
  apply strict_bind; [apply strict_get_jobs | intros jobs_json].
  apply strict_bind; [apply strict_lift | intros jobs].
  apply strict_bind;
    [apply strict_for_each; intros; apply strict_job_body | intros b].
  apply strict_bind;
    [apply strict_for_each; intros; apply strict_logging_info | intros _].
  apply strict_bind;
    [apply strict_for_each; intros; apply strict_run_chart_body | intros tuples].
  apply strict_bind; [apply strict_get_test_report | intros report].
  repeat (apply strict_bind; [apply strict_lift | intros ?]).
  (* the write and the last log line *)
  intros w r w' Hrun. unfold bind, write_file, logging_info in Hrun.
  inversion Hrun; subst r w'. exists []. simpl. rewrite app_nil_r.
  split; [reflexivity |].
  split; [intros [Habs | [e Habs]]; discriminate Habs |].
  intros k req resp Hk. discriminate Hk.
Qed.

(** C8, as the code has it: a response with an error status, 400 to 599,
    to any request of the run makes [main] raise [HTTPError]; the request
    that received it is the last one sent, so nothing is retried and
    nothing is fetched after it, and no file is written. *)
Theorem http_error_aborts_run : aborts_on is_error_status.
Proof.
  intros w r w' k req resp Hrun Hk Hreq Hserver Hstatus.
  destruct (strict_main _ _ _ Hrun) as (new & Hnew & Hfiles & Hbad).
  rewrite Hnew in Hreq.
  rewrite lookup_app_r in Hreq by exact Hk.
  replace k with (List.length (w_requests w) + (k - List.length (w_requests w)))%nat
    in Hserver by lia.
  destruct (Hbad _ _ _ Hreq Hserver Hstatus) as [-> Hlast].
  split; [reflexivity |].
  split; [rewrite Hnew, length_app; lia |].
  apply Hfiles. right. eauto.
Qed.

(** ** Further statements: the pipeline list *)

(** X1: [get_pipelines] returns exactly when the response is a non-empty
    list whose first fifty entries carry an id; it then returns the first
    entry and those ids in order, and entries past the fiftieth are not
    looked at. *)
Theorem get_pipelines_returns_iff w latest ids :
  (exists w', get_pipelines DMSC_NIGHTLY_PROJECT_ID w = (Ok (latest, ids), w'))
  <->
  (exists rest,
     served (List.length (w_requests w)) pipelines_request (JArr (latest :: rest))
     /\ rmap (fun pipeline => py_getitem_key pipeline "id")
             (take 50 (latest :: rest)) = Ok ids).
Proof.
  split.
  - intros [w' H]. apply get_pipelines_Ok in H.
    destruct H as (rest & Hserved & Hids & _). eauto.
  - intros (rest & (resp & Hserver & Hstatus & Hbody) & Hids).
    eapply get_pipelines_total; eassumption.
Qed.

(** ** Further statements: the requests of a run *)

Lemma completed_requests w L w' :
  completed w L w' ->
  w_requests w'
  = w_requests w
    ++ [pipelines_request; jobs_request (l_pipeline_id L)]
    ++ (test_report_request <$> l_last_50 L)
    ++ [test_report_request (l_pipeline_id L)]
  /\ w_files w' = <["render/rendered.html" := l_content L]> (w_files w)
  /\ head (l_last_50 L) = Some (l_pipeline_id L)
  /\ (List.length (l_last_50 L) <= 50)%nat.
Proof.
  intros (w1 & w2 & w3 & w4 & w5 & w6 & jobs_json & report & suites_json
          & skipped & template & fdate & pct & Hget & Hid & Hjobs & _ & Hloop
          & Hlog & Hchart & Hreport & _ & _ & _ & _ & _ & _ & _ & _ & ->).
  apply get_pipelines_Ok in Hget.
  destruct Hget as (rest & _ & Hids & Hreq1 & Hfiles1).
  apply fetch_Ok in Hjobs. destruct Hjobs as [_ ->].
  apply job_loop in Hloop. destruct Hloop as (_ & _ & _ & _ & _ & Hreq3 & Hfiles3).
  apply log_loop in Hlog. destruct Hlog as (_ & Hreq4 & Hfiles4 & _).
  apply run_chart_loop in Hchart.
  destruct Hchart as (_ & _ & _ & Hreq5 & Hfiles5).
  apply get_test_report_Ok in Hreport. destruct Hreport as [_ ->].
  cbn [w_requests w_files sent] in *.
  split; [| split; [| split]].
  - rewrite Hreq5, Hreq4, Hreq3. cbn [w_requests sent]. rewrite Hreq1.
    rewrite <- !app_assoc. reflexivity.
  - rewrite Hfiles5, Hfiles4, Hfiles3. cbn [w_files sent]. rewrite Hfiles1.
    reflexivity.
  - simpl take in Hids. simpl rmap in Hids.
    apply rbind_Ok in Hids. destruct Hids as (id0 & Hid0 & Hids).
    apply rbind_Ok in Hids. destruct Hids as (ids' & _ & Hids).
    inversion Hids as [Heq]. simpl. congruence.
  - pose proof (rmap_length _ _ _ Hids) as Hlen.
    rewrite length_take in Hlen. lia.
Qed.


Lemma calls_quiet P {A} (m : M A) :
  (forall w r w', m w = (r, w') -> w_requests w' = w_requests w) ->
  calls P m.
Proof.
  intros Hm w r w' Hrun. exists []. rewrite app_nil_r.
  split; [exact (Hm _ _ _ Hrun) | constructor].
Qed.

Lemma calls_lift P {A} (r : result A) : calls P (lift r).
Proof. apply calls_quiet. unfold lift. intros w r' w' H. inversion H; reflexivity. Qed.

Lemma calls_ret P {A} (a : A) : calls P (ret a).
Proof. apply calls_quiet. unfold ret. intros w r' w' H. inversion H; reflexivity. Qed.

Lemma calls_logging_info P msg : calls P (logging_info msg).
Proof.
  apply calls_quiet. unfold logging_info. intros w r' w' H.
  inversion H; reflexivity.
Qed.

Lemma calls_bind P {A B} (m : M A) (k : A -> M B) :
  calls P m -> (forall a, calls P (k a)) -> calls P (bind m k).
Proof.
  intros Hm Hk w r w' Hrun. apply bind_cases in Hrun.
  destruct Hrun as [(a & w1 & Hrun1 & Hrun2) | (e & Hrun1 & _)].
  - destruct (Hm _ _ _ Hrun1) as (new1 & Hreq1 & HP1).
    destruct (Hk a _ _ _ Hrun2) as (new2 & Hreq2 & HP2).
    exists (new1 ++ new2). rewrite Hreq2, Hreq1, app_assoc.
    split; [reflexivity | apply Forall_app; auto].
  - exact (Hm _ _ _ Hrun1).
Qed.

Lemma calls_requests_get P url auth :
  P {| req_url := url; req_authorization := auth |} ->
  calls P (requests_get url auth).
Proof.
  intros HP w r w' Hrun. unfold requests_get in Hrun. inversion Hrun; subst.
  eexists. split; [reflexivity |]. constructor; [exact HP | constructor].
Qed.

Lemma calls_for_each P {A S} (body : S -> A -> M S) l :
  (forall s x, calls P (body s x)) -> forall s, calls P (for_each body l s).
Proof.
  intros Hbody. induction l as [|x l IH]; intros s; simpl.
  - apply calls_ret.
  - apply calls_bind; [apply Hbody | exact IH].
Qed.

Lemma calls_get_test_report pid :
  calls api_request (get_test_report DMSC_NIGHTLY_PROJECT_ID pid).
Proof.
  unfold get_test_report.
  apply calls_bind; [| intros resp; apply calls_bind; intros; apply calls_lift].
  apply calls_requests_get. split; [reflexivity |].
  exists ("/" +:+ py_str pid +:+ "/test_report"). reflexivity.
Qed.

Lemma calls_get_jobs pid :
  calls api_request (get_jobs DMSC_NIGHTLY_PROJECT_ID pid).
Proof.
  unfold get_jobs.
  apply calls_bind; [| intros resp; apply calls_bind; intros; apply calls_lift].
  apply calls_requests_get. split; [reflexivity |].
  exists ("/" +:+ py_str pid +:+ "/jobs?per_page=100"). reflexivity.
Qed.

Lemma calls_job_body b job : calls api_request (job_body b job).
Proof.
  apply calls_quiet. intros w r w' H.
  unfold job_body in H. apply bind_cases in H.
  destruct (random_choices_Ok TEAMS 2 w) as (picked & Hpicked & _).
  destruct H as [(a & w1 & Hrun1 & Hrun2) | (e & Hrun1 & _)];
    rewrite Hpicked in Hrun1; inversion Hrun1; subst; clear Hrun1.
  repeat (apply bind_cases in Hrun2;
          destruct Hrun2 as [(? & ? & Hl & Hrun2) | (? & Hl & _)];
          unfold lift in Hl; inversion Hl; subst; clear Hl; try reflexivity).
  destruct (py_eq_str _ "success").
  - unfold ret in Hrun2. inversion Hrun2; reflexivity.
  - apply bind_cases in Hrun2.
    destruct Hrun2 as [(? & ? & Hl & Hrun2) | (? & Hl & _)];
      unfold lift in Hl; inversion Hl; subst; clear Hl; try reflexivity.
    destruct (py_eq_str _ "failed"); unfold ret in Hrun2;
      inversion Hrun2; reflexivity.
Qed.

Lemma calls_run_chart_body rc pid : calls api_request (run_chart_body rc pid).
Proof.
  unfold run_chart_body.
  apply calls_bind; [apply calls_get_test_report | intros report].
  repeat (apply calls_bind; [apply calls_lift | intros ?]).
  apply calls_ret.
Qed.

(** A statement that begins with a part making exactly the call [req]. *)
Lemma calls_bind_first P {A B} (m : M A) (k : A -> M B) req :
  (forall w r w1, m w = (r, w1) -> w_requests w1 = w_requests w ++ [req]) ->
  P req ->
  (forall a, calls P (k a)) ->
  forall w r w',
    bind m k w = (r, w') ->
    exists new,
      w_requests w' = w_requests w ++ req :: new /\ Forall P (req :: new).
Proof.
  intros Hm Hreq Hk w r w' Hrun. apply bind_cases in Hrun.
  destruct Hrun as [(a & w1 & Hrun1 & Hrun2) | (e & Hrun1 & _)].
  - destruct (Hk a _ _ _ Hrun2) as (new & Hnew & HP).
    exists new. rewrite Hnew, (Hm _ _ _ Hrun1), <- app_assoc.
    split; [reflexivity | constructor; assumption].
  - exists []. rewrite (Hm _ _ _ Hrun1).
    split; [reflexivity | constructor; [assumption | constructor]].
Qed.


(** ** Further statements: the output file *)

(** X4: a run writes all or nothing.  When it reaches the end, the only
    change to the files is that [render/rendered.html] holds the text that
    the template [dashboard.html] renders from the arguments of the run,
    which replaces what was there; when it raises, at whatever step, no
    file is changed. *)
Theorem output_all_or_nothing w r w' :
  main w = (r, w') ->
  match r with
  | Ok _ =>
      exists L template,
        completed w L w'
        /\ get_template "dashboard.html" = Ok template
        /\ template (l_args L) = Ok (l_content L)
        /\ w_files w' = <["render/rendered.html" := l_content L]> (w_files w)
  | Err _ => w_files w' = w_files w
  end.
Proof.
  intros Hrun. destruct r as [[]|e].
  - destruct (main_completed _ _ Hrun) as [L HL].
    destruct (completed_requests _ _ _ HL) as (_ & Hfiles & _).
    pose proof HL as (w1 & w2 & w3 & w4 & w5 & w6 & jobs_json & report
                      & suites_json & skipped & template & fdate & pct & _ & _ & _
                      & _ & _ & _ & _ & _ & _ & _ & _ & Htemplate & _ & _ & _
                      & Hcontent & _).
    exists L, template. auto.
  - destruct (strict_main _ _ _ Hrun) as (new & _ & Hfiles & _).
    apply Hfiles. right. exists e. reflexivity.
Qed.

(** ** Further statements: the job list *)

Lemma success_not_failed obj : is_success obj = true -> is_failed obj = false.
Proof.
  unfold is_success, is_failed. intros H. apply py_eq_str_true in H.
  rewrite H. reflexivity.
Qed.

Lemma buckets_permutation objs :
  Permutation objs
    (List.filter is_success objs ++ List.filter is_failed objs
     ++ List.filter is_other objs).
Proof.
  induction objs as [|obj objs IH]; [constructor |].
  cbn [List.filter]. unfold is_other at 1.
  destruct (is_success obj) eqn:Es.
  - rewrite (success_not_failed _ Es). simpl. constructor. exact IH.
  - destruct (is_failed obj); simpl.
    + apply Permutation_cons_app. exact IH.
    + rewrite app_assoc. apply Permutation_cons_app.
      rewrite <- app_assoc. exact IH.
Qed.

(** X5: the job list given to the renderer has exactly one object per
    fetched job: it is a rearrangement of the objects built in fetch
    order, so no job is dropped or shown twice; the list of failed jobs
    given beside it is the failed bucket. *)
Theorem every_job_displayed_once w w' :
  main w = (Ok tt, w') ->
  exists L objs,
    completed w L w'
    /\ Forall2 job_of (l_jobs L) objs
    /\ Permutation objs (ra_gitlab_tests (l_args L))
    /\ List.length (ra_gitlab_tests (l_args L)) = List.length (l_jobs L)
    /\ ra_failed_tests (l_args L) = List.filter is_failed objs.
Proof.
  intros Hmain. destruct (main_completed _ _ Hmain) as [L HL].
  pose proof HL as (w1 & w2 & w3 & w4 & w5 & w6 & jobs_json & report & suites_json
                  & skipped & template & fdate & pct & _ & _ & _ & _ & Hloop & _
                  & _ & _ & _ & _ & _ & _ & _ & _ & Hargs & _).
  apply job_loop in Hloop.
  destruct Hloop as (objs & Hobjs & Hs & Hf & Ho & _). simpl in Hs, Hf, Ho.
  exists L, objs. rewrite Hargs. cbn [ra_gitlab_tests ra_failed_tests].
  unfold all_jobs. rewrite Hs, Hf, Ho.
  split; [exact HL |]. split; [exact Hobjs |].
  split; [apply buckets_permutation |].
  split; [| reflexivity].
  rewrite <- (Permutation_length (buckets_permutation objs)).
  symmetry. exact (Forall2_length _ _ _ Hobjs).
Qed.

Lemma random_choices_two w :
  exists a b w2,
    random_choices TEAMS 2 w = (Ok [a; b], w2)
    /\ In a TEAMS /\ In b TEAMS
    /\ w_draws w2 = (w_draws w + 2)%nat
    /\ w_log w2 = w_log w.
Proof.
  exists (nth (draws (w_draws w) mod List.length TEAMS)%nat TEAMS ""),
         (nth (draws (S (w_draws w)) mod List.length TEAMS)%nat TEAMS "").
  eexists. split; [reflexivity |].
  split; [apply nth_In, Nat.mod_upper_bound; discriminate |].
  split; [apply nth_In, Nat.mod_upper_bound; discriminate |].
  split; [cbn [w_draws]; lia | reflexivity].
Qed.

Lemma job_body_label b job w b' w' :
  job_body b job w = (Ok b', w') ->
  exists obj,
    team_label (teams obj)
    /\ ((success b' = success b ++ [obj] /\ failed b' = failed b
         /\ others b' = others b)
        \/ (success b' = success b /\ failed b' = failed b ++ [obj]
            /\ others b' = others b)
        \/ (success b' = success b /\ failed b' = failed b
            /\ others b' = others b ++ [obj]))
    /\ (w_draws w' = (w_draws w + 2)%nat /\ w_log w' = w_log w).
Proof.
  unfold job_body. intros H.
  apply bind_Ok in H. destruct H as (picked & w2 & Hrun & H).
  destruct (random_choices_two w) as (x & y & w2' & Hxy & Hx & Hy & Hdraws).
  rewrite Hxy in Hrun. inversion Hrun; subst picked w2'; clear Hrun Hxy.
  assert (Hlabel : team_label (str_join ", " [x; y]))
    by (exists x, y; auto).
  run_step H. rename a into web_url.
  run_step H. rename a into status.
  run_step H. rename a into name.
  run_step H. rename a into stage.
  run_step H.
  destruct (py_eq_str _ "success").
  - apply ret_Ok in H. destruct H as [-> ->].
    exists {| job_run_url := web_url; job_run_status := status;
              job_name := name; job_stage := stage;
              teams := str_join ", " [x; y] |}.
    split; [exact Hlabel |]. split; [left; auto | exact Hdraws].
  - run_step H. destruct (py_eq_str _ "failed").
    + apply ret_Ok in H. destruct H as [-> ->].
      exists {| job_run_url := web_url; job_run_status := status;
                job_name := name; job_stage := stage;
                teams := str_join ", " [x; y] |}.
      split; [exact Hlabel |].
      split; [right; left; auto | exact Hdraws].
    + apply ret_Ok in H. destruct H as [-> ->].
      exists {| job_run_url := web_url; job_run_status := JStr "";
                job_name := name; job_stage := stage;
                teams := str_join ", " [x; y] |}.
      split; [exact Hlabel |].
      split; [right; right; auto | exact Hdraws].
Qed.

Lemma job_loop_labels jobs : forall b w b' w',
  for_each job_body jobs b w = (Ok b', w') ->
  Forall (fun obj => team_label (teams obj)) (all_jobs b) ->
  Forall (fun obj => team_label (teams obj)) (all_jobs b')
  /\ w_draws w' = (w_draws w + 2 * List.length jobs)%nat
  /\ w_log w' = w_log w.
Proof.
  induction jobs as [|job jobs IH]; simpl for_each; intros b w b' w' H Hb.
  - apply ret_Ok in H. destruct H as [-> ->].
    split; [exact Hb |]. split; [simpl; lia | reflexivity].
  - run_step H. rename a into b1.
    apply job_body_label in Hrun.
    destruct Hrun as (obj & Hlabel & Hcases & Hdraws & Hlog).
    apply IH in H.
    + destruct H as (Hall & Hdraws' & Hlog'). split; [exact Hall |].
      rewrite Hdraws', Hdraws, Hlog', Hlog. split; [simpl; lia | reflexivity].
    + unfold all_jobs in *. rewrite !Forall_app in Hb |- *.
      destruct Hb as (Hbs & Hbf & Hbo).
      destruct Hcases as [(-> & -> & ->) | [(-> & -> & ->) | (-> & -> & ->)]];
        rewrite ?Forall_app; repeat split; auto.
Qed.

Lemma run_chart_loop_draws pids : forall rc w rc' w',
  for_each run_chart_body pids rc w = (Ok rc', w') ->
  w_draws w' = w_draws w /\ w_log w' = w_log w.
Proof.
  induction pids as [|pid pids IH]; simpl; intros rc w rc' w' H.
  - apply ret_Ok in H. destruct H as [_ ->]. auto.
  - run_step H. apply run_chart_body_Ok in Hrun.
    destruct Hrun as (_ & _ & _ & _ & _ & ->).
    apply IH in H. exact H.
Qed.

(** X6: every job given to the renderer carries a placeholder label made
    of two names of the fixed team list joined by [", "], and a run that
    reaches the end has drawn exactly two random indices per fetched job. *)
Theorem team_labels_from_TEAMS w w' :
  main w = (Ok tt, w') ->
  exists L,
    completed w L w'
    /\ Forall (fun obj => team_label (teams obj)) (ra_gitlab_tests (l_args L))
    /\ w_draws w' = (w_draws w + 2 * List.length (l_jobs L))%nat.
Proof.
  intros Hmain. destruct (main_completed _ _ Hmain) as [L HL].
  exists L. split; [exact HL |].
  destruct HL as (w1 & w2 & w3 & w4 & w5 & w6 & jobs_json & report & suites_json
                  & skipped & template & fdate & pct & Hget & _ & Hjobs & _ & Hloop
                  & Hlog & Hchart & Hreport & _ & _ & _ & _ & _ & _ & Hargs & _ & ->).
  rewrite get_pipelines_run in Hget. cbv zeta in Hget.
  apply (f_equal snd) in Hget. cbn [snd] in Hget. rename Hget into Hw1.
  apply fetch_Ok in Hjobs. destruct Hjobs as [_ ->].
  apply job_loop_labels in Hloop; [| constructor].
  destruct Hloop as (Hlabels & Hdraws3 & _).
  apply log_loop in Hlog. destruct Hlog as (_ & _ & _ & Hdraws4).
  apply run_chart_loop_draws in Hchart. destruct Hchart as [Hchart _].
  apply get_test_report_Ok in Hreport. destruct Hreport as [_ ->].
  rewrite Hargs. cbn [ra_gitlab_tests w_draws sent].
  split; [exact Hlabels |].
  rewrite Hchart, Hdraws4, Hdraws3. cbn [w_draws sent]. rewrite <- Hw1.
  reflexivity.
Qed.

(** ** Further statements: the run chart *)

(** X7: the percentage shown on the dashboard is that of the latest
    pipeline: the tuple built first, for the first fetched id, which is
    the id of the latest pipeline, ends the reversed series, and its
    percentage, printed with two decimals and a percent sign, is the one
    given to the renderer. *)
Theorem displayed_percentage_is_latest w w' :
  main w = (Ok tt, w') ->
  exists L t,
    completed w L w'
    /\ head (l_tuples L) = Some t
    /\ tuple_for (l_pipeline_id L) t
    /\ last (rev (l_tuples L)) = Some t
    /\ ra_failed_job_percentage (l_args L) = format_2f (tuple_2 t) +:+ "%".
Proof.
  intros Hmain. destruct (main_completed _ _ Hmain) as [L HL].
  destruct (completed_requests _ _ _ HL) as (_ & _ & Hhead & _).
  pose proof HL as (w1 & w2 & w3 & w4 & w5 & w6 & jobs_json & report & suites_json
                  & skipped & template & fdate & pct & _ & _ & _ & _ & _ & _
                  & Hchart & _ & _ & _ & _ & _ & _ & Hpct & Hargs & _).
  apply run_chart_loop in Hchart. destruct Hchart as (ts & Hts & Hall & _).
  simpl in Hts. subst ts.
  destruct (l_last_50 L) as [|pid pids]; [discriminate Hhead |].
  inversion Hhead; subst pid.
  inversion Hall as [|pid t pids' ts Ht Hrest Hp Hts]. subst.
  exists L, t. rewrite <- Hts in Hpct |- *.
  split; [exact HL |]. split; [reflexivity |]. split; [exact Ht |].
  simpl rev in Hpct |- *. rewrite last_snoc.
  split; [reflexivity |].
  rewrite Hargs. cbn [ra_failed_job_percentage].
  unfold format_percentage, py_last in Hpct.
  rewrite fmap_app in Hpct. change (tuple_2 <$> [t]) with [tuple_2 t] in Hpct.
  rewrite last_snoc in Hpct. cbn [rbind] in Hpct.
  inversion Hpct. reflexivity.
Qed.

(** ** Further statements: the skipped-test table *)

(** X8: the table given to the renderer lists the entries suite by suite
    in the order of the report, and inside a suite in the order of its
    test cases: it is the concatenation, over the suites, of one entry per
    skipped test case of the suite, so its length is the number of skipped
    test cases. *)
Theorem skipped_table_in_report_order w w' :
  main w = (Ok tt, w') ->
  exists L ess,
    completed w L w'
    /\ Forall2 (suite_entries (l_pipeline_id L)) (l_test_suites L) ess
    /\ ra_skipped_test_suites (l_args L) = concat ess.
Proof.
  intros Hmain. destruct (main_completed _ _ Hmain) as [L HL].
  pose proof HL as (w1 & w2 & w3 & w4 & w5 & w6 & jobs_json & report & suites_json
                  & skipped & template & fdate & pct & _ & _ & _ & _ & _ & _
                  & _ & _ & _ & _ & Hskipped & _ & _ & _ & Hargs & _).
  apply test_suite_loop in Hskipped. destruct Hskipped as (ess & Hess & ->).
  exists L, ess. rewrite Hargs. auto.
Qed.

(** ** Further statements: the deep links *)

Lemma append_inv_head (a x y : string) : a +:+ x = a +:+ y -> x = y.
Proof.
  induction a as [|c a IH]; intros H; [exact H |].
  change (String c (a +:+ x) = String c (a +:+ y)) in H.
  inversion H. auto.
Qed.

Lemma quote_str_safe s :
  Forall (fun c => quote_safe c = true) (list_ascii_of_string s) ->
  quote_str s = s.
Proof.
  induction s as [|c s IH]; intros H; [reflexivity |].
  simpl in H. inversion H as [|c' l Hc Hs]; subst.
  simpl quote_str. unfold quote_byte. rewrite Hc, (IH Hs). reflexivity.
Qed.


(** X10: a suite name made of letters, digits and [_.-~/] only is written
    into its deep link unchanged. *)
Theorem deep_link_of_safe_name (pipeline_id : json) (suite_name : string) :
  Forall (fun c => quote_safe c = true) (list_ascii_of_string suite_name) ->
  job_name_url pipeline_id (JStr suite_name)
  = Ok ("https://git.esss.dk/dmsc-nightly/dmsc-nightly/-/pipelines/"
        +:+ py_str pipeline_id +:+ "/test_report?job_name=" +:+ suite_name).
Proof.
  intros Hsafe. cbn [job_name_url quote rbind].
  rewrite (quote_str_safe _ Hsafe). reflexivity.
Qed.

(** ** Further statements: the date *)


(** ** Further statements: the ends of the percentage *)

Lemma SFdiv_self sx m :
  SFdiv prec emax (S754_finite sx m 0) (S754_finite sx m 0)
  = S754_finite false 4503599627370496 (-52).
Proof.
  unfold SFdiv, SFdiv_core_binary. cbn [Zdigits2].
  replace (Z.pos (digits2_pos m) + 0 - (Z.pos (digits2_pos m) + 0)) with 0 by lia.
  change (Z.min (fexp prec emax 0) (0 - 0)) with (-53).
  change (0 - 0 - -53) with 53.
  rewrite Z.shiftl_mul_pow2 by lia.
  assert (Hdiv : Z.div_eucl (Z.pos m * 2 ^ 53) (Z.pos m) = (2 ^ 53, 0)).
  { pose proof (Z.div_mul (2 ^ 53) (Z.pos m) ltac:(lia)) as Hq.
    pose proof (Z.mod_mul (2 ^ 53) (Z.pos m) ltac:(lia)) as Hr.
    rewrite (Z.mul_comm (Z.pos m)).
    unfold Z.div, Z.modulo in Hq, Hr.
    destruct (Z.div_eucl (2 ^ 53 * Z.pos m) (Z.pos m)) as [q r].
    subst q r. reflexivity. }
  rewrite Hdiv.
  assert (Hloc : new_location (Z.pos m) 0 = loc_Exact).
  { unfold new_location. destruct (Z.even (Z.pos m)); reflexivity. }
  rewrite Hloc. destruct sx; reflexivity.
Qed.

(** X12: for every positive total, a pipeline without failed tests has
    the percentage [0.0], printed [0.00%], and a pipeline whose tests all
    failed has exactly [100.0], printed [100.00%]: the division and the
    product round to the exact values at both ends. *)
Theorem percentage_extremes (n : Z) :
  0 < n ->
  failed_percentage (JInt 0) (JInt n) = Ok (S754_zero false)
  /\ format_2f (S754_zero false) +:+ "%" = "0.00%"
  /\ failed_percentage (JInt n) (JInt n)
     = Ok (S754_finite false 7036874417766400 (-46))
  /\ format_2f (S754_finite false 7036874417766400 (-46)) +:+ "%" = "100.00%".
Proof.
  intros Hn.
  assert (Htruthy : py_truthy (JInt n) = true).
  { simpl. destruct (Z.eqb_spec n 0); [lia | reflexivity]. }
  unfold failed_percentage. rewrite Htruthy.
  destruct n as [|m|m]; try lia.
  split; [reflexivity |]. split; [reflexivity |]. split; [| reflexivity].
  change (py_truediv (JInt (Z.pos m)) (JInt (Z.pos m)))
    with (match SFdiv prec emax (S754_finite false m 0) (S754_finite false m 0) with
          | S754_infinity _ => Err OverflowError
          | x => Ok x
          end).
  rewrite SFdiv_self. reflexivity.
Qed.

(** ** Further statements: which responses the loops accept *)

Lemma job_of_ok job obj : job_of job obj -> job_ok job.
Proof.
  intros (status & Hurl & Hstatus & Hname & Hstage & _).
  exists (job_run_url obj), status, (job_name obj), (job_stage obj). auto.
Qed.

(** X13: the job loop finishes exactly when every fetched job entry has
    the four fields [web_url], [status], [name] and [stage]; one entry
    without one of them aborts the run, whatever its buckets held. *)
Theorem job_loop_finishes_iff (jobs : list json) (b : buckets) (w : world) :
  (exists b' w', for_each job_body jobs b w = (Ok b', w'))
  <-> Forall job_ok jobs.
Proof.
  split.
  - intros (b' & w' & H). apply job_loop in H.
    destruct H as (objs & Hobjs & _).
    induction Hobjs as [|job obj jobs objs Hjob _ IH]; constructor.
    + exact (job_of_ok _ _ Hjob).
    + exact IH.
  - intros Hok. apply job_loop_total. exact Hok.
Qed.

Lemma test_case_loop_ok url cases : forall acc acc',
  rfold (test_case_body url) cases acc = Ok acc' -> Forall case_ok cases.
Proof.
  induction cases as [|tc cases IH]; simpl rfold; intros acc acc' H;
    [constructor |].
  apply rbind_Ok in H. destruct H as (acc1 & Hbody & H).
  constructor; [| exact (IH _ _ H)].
  unfold test_case_body in Hbody.
  apply rbind_Ok in Hbody. destruct Hbody as (status & Hstatus & Hbody).
  exists status. split; [exact Hstatus |].
  intros Hskipped. rewrite Hskipped in Hbody.
  apply rbind_Ok in Hbody. destruct Hbody as (classname & Hclass & Hbody).
  apply rbind_Ok in Hbody. destruct Hbody as (name & Hname & _).
  eauto.
Qed.

(** X14: the skipped-test loops finish only if every suite of the report
    has a [str] name and readable test cases: each case has a status, and
    a skipped one also a class name and a name.  A suite or a case
    without them makes the loops raise, whatever the other suites are and
    even when none of its cases is skipped. *)
Theorem skipped_loops_finish_only_if (pipeline_id : json) (suites : list json)
    (acc table : list skipped_entry) :
  rfold (test_suite_body pipeline_id) suites acc = Ok table ->
  Forall suite_ok suites.
Proof.
  revert acc table.
  induction suites as [|test suites IH]; simpl rfold; intros acc table H;
    [constructor |].
  apply rbind_Ok in H. destruct H as (acc1 & Hbody & H).
  constructor; [| exact (IH _ _ H)].
  unfold test_suite_body in Hbody.
  apply rbind_Ok in Hbody. destruct Hbody as (name & Hname & Hbody).
  apply rbind_Ok in Hbody. destruct Hbody as (url & Hurl & Hbody).
  apply rbind_Ok in Hbody. destruct Hbody as (cases_json & Hcases & Hbody).
  apply rbind_Ok in Hbody. destruct Hbody as (cases & Hiter & Hbody).
  destruct name as [| | | |s| |]; try discriminate Hurl.
  exists s, cases. split; [exact Hname |].
  split; [unfold cases_of; rewrite Hcases; exact Hiter |].
  exact (test_case_loop_ok _ _ _ _ Hbody).
Qed.

(** ** Further statements: the log *)

Lemma log_loop_lines (l : list Job) : forall w w',
  for_each log_job l tt w = (Ok tt, w') ->
  w_log w' = w_log w ++ (job_line <$> l).
Proof.
  induction l as [|job l IH]; simpl; intros w w' H.
  - apply ret_Ok in H. destruct H as [_ ->]. rewrite app_nil_r. reflexivity.
  - unfold bind at 1 in H. unfold log_job at 1 in H.
    unfold logging_info at 1 in H. cbv iota beta in H.
    apply IH in H. rewrite H. cbn [w_log]. rewrite <- app_assoc. reflexivity.
Qed.

(** X15: the log of a run that reaches the end is the line announcing the
    pipelines request, then one line per job in the order given to the
    renderer (successes, failures, others, with the blanked status of the
    others), then the line announcing the written file; the fetches of
    jobs and test reports are not logged. *)
Theorem log_of_completed_run w w' :
  main w = (Ok tt, w') ->
  exists L,
    completed w L w'
    /\ w_log w'
       = w_log w
         ++ ["Fetching pipelines from URL: " +:+ req_url pipelines_request]
         ++ (job_line <$> ra_gitlab_tests (l_args L))
         ++ ["... wrote render/rendered.html"].
Proof.
  intros Hmain. destruct (main_completed _ _ Hmain) as [L HL].
  exists L. split; [exact HL |].
  destruct HL as (w1 & w2 & w3 & w4 & w5 & w6 & jobs_json & report & suites_json
                  & skipped & template & fdate & pct & Hget & _ & Hjobs & _ & Hloop
                  & Hlog & Hchart & Hreport & _ & _ & _ & _ & _ & _ & Hargs & _ & ->).
  rewrite get_pipelines_run in Hget. cbv zeta in Hget.
  apply (f_equal snd) in Hget. cbn [snd] in Hget. rename Hget into Hw1.
  apply fetch_Ok in Hjobs. destruct Hjobs as [_ ->].
  apply job_loop_labels in Hloop; [| constructor].
  destruct Hloop as (_ & _ & Hlog3).
  apply log_loop_lines in Hlog.
  apply run_chart_loop_draws in Hchart. destruct Hchart as [_ Hlog5].
  apply get_test_report_Ok in Hreport. destruct Hreport as [_ ->].
  rewrite Hargs. cbn [ra_gitlab_tests w_log sent].
  rewrite Hlog5, Hlog, Hlog3. cbn [w_log sent]. rewrite <- Hw1. cbn [w_log].
  rewrite <- !app_assoc. reflexivity.
Qed.

End Script.

(** ** The statements on the sample run *)

Local Abbreviation sample_token := (Some "glpat-token").
Local Abbreviation sample_draws := (fun n : nat => n).
Local Abbreviation sample_str := (fun _ : json => "").
Local Abbreviation sample_main code :=
  (main sample_token (sample_server code) sample_draws sample_str
        (fun _ => Err ValueError) sample_template).
Local Abbreviation sample_completed :=
  (completed sample_token (sample_server 200) sample_draws sample_str
             (fun _ => Err ValueError) sample_template initial_world).
Local Abbreviation history_main :=
  (main sample_token history_server sample_draws sample_str
        (fun _ => Err ValueError) sample_template).
Local Abbreviation history_completed :=
  (completed sample_token history_server sample_draws sample_str
             (fun _ => Err ValueError) sample_template initial_world).
Local Abbreviation scenario_main :=
  (main sample_token scenario_server sample_draws sample_str
        (fun _ => Err ValueError) sample_template).

Ltac run_locals :=
  let L := fresh "L" in
  let w' := fresh "w'" in
  intros L w';
  destruct L as [lp ll lid lj lb lt ls la lc];
  intros (w1 & w2 & w3 & w4 & w5 & w6 & jobs_json & report & suites_json
          & skipped & template & fdate & pct & Hget & Hid & Hjobs & Hiter & Hloop
          & Hlog & Hchart & Hreport & Hsuites & Hsuites_iter & Hskipped
          & Htemplate & Hdate & Hpct & Hargs & Hcontent & Hw');
  cbn [l_pipeline l_last_50 l_pipeline_id l_jobs l_buckets l_tuples l_test_suites
       l_args l_content] in *;
  vm_compute in Hget; injection Hget as Hlp Hll Hw1; subst lp ll w1;
  vm_compute in Hid; injection Hid as Hlid; subst lid;
  vm_compute in Hjobs; injection Hjobs as Hj Hw2; subst jobs_json w2;
  vm_compute in Hiter; injection Hiter as Hlj; subst lj;
  vm_compute in Hloop; injection Hloop as Hlb Hw3; subst lb w3;
  vm_compute in Hlog; injection Hlog as Hw4; subst w4;
  vm_compute in Hchart; injection Hchart as Hlt Hw5; subst lt w5;
  vm_compute in Hreport; injection Hreport as Hr Hw6; subst report w6;
  vm_compute in Hsuites; injection Hsuites as Hsj; subst suites_json;
  vm_compute in Hsuites_iter; injection Hsuites_iter as Hls; subst ls;
  vm_compute in Hskipped; injection Hskipped as Hsk; subst skipped;
  vm_compute in Htemplate; injection Htemplate as Ht; subst template;
  vm_compute in Hdate; injection Hdate as Hfd; subst fdate;
  vm_compute in Hpct; injection Hpct as Hp; subst pct;
  subst la; vm_compute in Hcontent; injection Hcontent as Hlc; subst lc.

(** The values of the variables in the run of the sample. *)
Lemma sample_locals : forall L w',
  sample_completed L w' ->
  l_pipeline_id L = JInt 42
  /\ l_test_suites L
     = [sample_object
          [("name", JStr "A B");
           ("test_cases",
            JArr [sample_object [("status", JStr "skipped");
                                 ("classname", JStr "TestKafka");
                                 ("name", JStr "test_produce")];
                  sample_object [("status", JStr "success");
                                 ("classname", JStr "TestKafka");
                                 ("name", JStr "test_consume")]])]]
  /\ l_content L = "20.00% January 02, 2024 03:04 AM UTC".
Proof.
  run_locals. split; [reflexivity |]. split; reflexivity.
Qed.

(** The values of the variables in the run over three pipelines. *)
Lemma history_locals : forall L w',
  history_completed L w' ->
  l_pipeline_id L = JInt 44
  /\ l_last_50 L = [JInt 44; JInt 43; JInt 42]
  /\ tuple_1 <$> l_tuples L = [JInt 8; JInt 10; JInt 5]
  /\ tuple_3 <$> l_tuples L = [JInt 1; JInt 2; JInt 0]
  /\ tuple_4 <$> l_tuples L = [JInt 0; JInt 1; JInt 2]
  /\ format_2f <$> (tuple_2 <$> l_tuples L) = ["12.50"; "20.00"; "0.00"].
Proof.
  run_locals. repeat split; reflexivity.
Qed.

Lemma failed_percentage_guarded_witness :
  failed_percentage (JInt 2) (JInt 10)
  = Ok (S754_finite false 5629499534213120 (-48))
  /\ failed_percentage (JInt 2) (JInt 0) = Ok (S754_zero false)
  /\ exists tuples,
      Forall2
        (fun pid t =>
           tuple_for sample_token (sample_server 200) sample_str pid t
           /\ failed_percentage (tuple_3 t) (tuple_1 t) = Ok (tuple_2 t))
        [JInt 42] tuples.
Proof.
  destruct (failed_percentage_guarded sample_token (sample_server 200) sample_str)
    as (Hexpr & Hint & Hloop).
  split; [| split].
  - destruct (Hexpr (JInt 2) (JInt 10)) as (Htrue & _ & _).
    destruct (Htrue (proj2 (Hint 10) ltac:(discriminate))) as [_ ->].
    reflexivity.
  - destruct (Hexpr (JInt 2) (JInt 0)) as (_ & Hfalse & _).
    apply Hfalse. reflexivity.
  - eexists. eapply (Hloop [JInt 42] initial_world).
    vm_compute. reflexivity.
Defined.

Lemma jobs_bucketed_by_status_witness :
  exists L,
    completed sample_token (sample_server 200) sample_draws sample_str
              (fun _ => Err ValueError) sample_template
              initial_world L (snd (sample_main 200 initial_world))
    /\ (forall job, In job (l_jobs L) ->
         exists status obj,
           py_getitem_key job "status" = Ok status
           /\ job_of job obj
           /\ (status = JStr "success" ->
                In obj (success (l_buckets L))
                /\ job_run_status obj = JStr "success")
           /\ (status = JStr "failed" ->
                In obj (failed (l_buckets L))
                /\ job_run_status obj = JStr "failed")
           /\ (status <> JStr "success" -> status <> JStr "failed" ->
                In obj (others (l_buckets L))
                /\ job_run_status obj = JStr ""))
    /\ Forall (fun obj => job_run_status obj = JStr "success") (success (l_buckets L))
    /\ Forall (fun obj => job_run_status obj = JStr "failed") (failed (l_buckets L))
    /\ Forall (fun obj => job_run_status obj = JStr "") (others (l_buckets L)).
Proof.
  apply jobs_bucketed_by_status. vm_compute. reflexivity.
Defined.

Lemma all_jobs_order_witness :
  exists L objs,
    completed sample_token (sample_server 200) sample_draws sample_str
              (fun _ => Err ValueError) sample_template
              initial_world L (snd (sample_main 200 initial_world))
    /\ Forall2 job_of (l_jobs L) objs
    /\ success (l_buckets L) = List.filter is_success objs
    /\ failed (l_buckets L) = List.filter is_failed objs
    /\ others (l_buckets L) = List.filter is_other objs
    /\ ra_gitlab_tests (l_args L)
       = List.filter is_success objs ++ List.filter is_failed objs
         ++ List.filter is_other objs.
Proof.
  apply all_jobs_order. vm_compute. reflexivity.
Defined.

Lemma run_chart_reversed_witness :
  exists L,
    history_completed L (snd (history_main initial_world))
    /\ l_last_50 L = [JInt 44; JInt 43; JInt 42]
    /\ Forall2 (tuple_for sample_token history_server sample_str)
               (l_last_50 L) (l_tuples L)
    /\ ra_pipeline_run_ids (l_args L) = [JInt 42; JInt 43; JInt 44]
    /\ ra_number_of_tests (l_args L) = [JInt 5; JInt 10; JInt 8]
    /\ ra_failing_test (l_args L) = [JInt 0; JInt 2; JInt 1]
    /\ ra_skipped_tests (l_args L) = [JInt 2; JInt 1; JInt 0]
    /\ (forall i pid, l_last_50 L !! i = Some pid ->
         exists t,
           rev (l_tuples L) !! (List.length (l_last_50 L) - 1 - i)%nat = Some t
           /\ tuple_for sample_token history_server sample_str pid t).
Proof.
  destruct (run_chart_reversed sample_token history_server sample_draws sample_str
              (fun _ => Err ValueError) sample_template initial_world
              (snd (history_main initial_world)))
    as (L & HL & Hall & Hids & Hnumber & Hfailing & Hskipped & Hplace).
  { vm_compute. reflexivity. }
  destruct (history_locals L _ HL) as (_ & Hlast & Ht1 & Ht3 & Ht4 & _).
  exists L. rewrite Hids, Hnumber, Hfailing, Hskipped.
  rewrite !fmap_rev, Ht1, Ht3, Ht4, Hlast.
  split; [exact HL |]. split; [reflexivity |].
  split; [rewrite <- Hlast; exact Hall |].
  do 4 (split; [reflexivity |]).
  rewrite <- Hlast. exact Hplace.
Defined.

Lemma skipped_table_exact_witness :
  exists L,
    sample_completed L (snd (sample_main 200 initial_world))
    /\ In (JStr "TestKafka", JStr "test_produce",
           "https://git.esss.dk/dmsc-nightly/dmsc-nightly/-/pipelines/42"
           +:+ "/test_report?job_name=A%20B")
          (ra_skipped_test_suites (l_args L))
    /\ forall e,
        In e (ra_skipped_test_suites (l_args L)) <->
        exists test cases tc suite_name,
          In test (l_test_suites L)
          /\ cases_of test = Ok cases
          /\ In tc cases
          /\ py_getitem_key tc "status" = Ok (JStr "skipped")
          /\ py_getitem_key test "name" = Ok (JStr suite_name)
          /\ py_getitem_key tc "classname" = Ok (fst (fst e))
          /\ py_getitem_key tc "name" = Ok (snd (fst e))
          /\ snd e
             = "https://git.esss.dk/dmsc-nightly/dmsc-nightly/-/pipelines/"
               +:+ py_str sample_str (l_pipeline_id L) +:+ "/test_report?job_name="
               +:+ quote_str suite_name.
Proof.
  destruct (skipped_table_exact sample_token (sample_server 200) sample_draws
              sample_str (fun _ => Err ValueError) sample_template initial_world
              (snd (sample_main 200 initial_world)))
    as (L & HL & Htable).
  { vm_compute. reflexivity. }
  destruct (sample_locals L _ HL) as (Hid & Hsuites & _).
  exists L. split; [exact HL |]. split; [| exact Htable].
  apply Htable. rewrite Hid, Hsuites.
  eexists. eexists. eexists. exists "A B".
  split; [left; reflexivity |].
  split; [reflexivity |].
  split; [left; reflexivity |].
  repeat split; reflexivity.
Defined.



Lemma http_error_aborts_run_witness :
  fst (sample_main 404 initial_world) = Err HTTPError
  /\ 1%nat = List.length (w_requests (snd (sample_main 404 initial_world)))
  /\ w_files (snd (sample_main 404 initial_world)) = w_files initial_world.
Proof.
  eapply (http_error_aborts_run sample_token (sample_server 404) sample_draws
            sample_str (fun _ => Err ValueError) sample_template
            initial_world _ _ 0%nat).
  - apply surjective_pairing.
  - simpl. lia.
  - vm_compute. reflexivity.
  - vm_compute. reflexivity.
  - reflexivity.
Defined.

(** C8 does not extend to every status outside 2xx: every response of this
    run carries the status 300, and the run still reaches the end and
    writes the dashboard. *)
Lemma non_2xx_response_not_rejected :
  ~ aborts_on sample_token (sample_server 300) sample_draws sample_str
              (fun _ => Err ValueError) sample_template non_2xx.
Proof.
  intros Habs.
  destruct (Habs initial_world (fst (sample_main 300 initial_world))
                 (snd (sample_main 300 initial_world)) 0%nat
                 (pipelines_request sample_token)
                 {| status_code := 300; body := Some sample_pipelines |})
    as [Hraise _].
  - apply surjective_pairing.
  - simpl. lia.
  - vm_compute. reflexivity.
  - vm_compute. reflexivity.
  - reflexivity.
  - vm_compute in Hraise. discriminate Hraise.
Qed.

Lemma empty_pipelines_index_error_witness :
  exists w',
    get_pipelines sample_token empty_server DMSC_NIGHTLY_PROJECT_ID initial_world
    = (Err IndexError, w')
    /\ main sample_token empty_server sample_draws sample_str
            (fun _ => Err ValueError) sample_template initial_world
       = (Err IndexError, w')
    /\ w_requests w' = w_requests initial_world ++ [pipelines_request sample_token]
    /\ w_draws w' = w_draws initial_world
    /\ w_files w' = w_files initial_world.
Proof.
  apply (empty_pipelines_index_error sample_token empty_server sample_draws
           sample_str (fun _ => Err ValueError) sample_template initial_world
           {| status_code := 200; body := Some (JArr []) |});
    reflexivity.
Defined.

Lemma chart_arrays_nonempty_witness :
  exists w' L,
    history_main initial_world = (Ok tt, w')
    /\ history_completed L w'
    /\ l_pipeline L
       = sample_object [("id", JInt 44); ("updated_at", JStr "2024-01-04T21:30:00Z")]
    /\ l_last_50 L = [JInt 44; JInt 43; JInt 42]
    /\ head (l_last_50 L) = Some (l_pipeline_id L)
    /\ List.length (l_last_50 L) = 3%nat
    /\ List.length (l_tuples L) = List.length (l_last_50 L)
    /\ List.length (ra_pipeline_run_ids (l_args L)) = List.length (l_last_50 L)
    /\ List.length (ra_number_of_tests (l_args L)) = List.length (l_last_50 L)
    /\ List.length (ra_failing_test (l_args L)) = List.length (l_last_50 L)
    /\ List.length (ra_skipped_tests (l_args L)) = List.length (l_last_50 L)
    /\ (0 < List.length (l_last_50 L))%nat
    /\ exists x,
        py_last (tuple_2 <$> rev (l_tuples L)) = Ok x
        /\ ra_failed_job_percentage (l_args L) = format_2f x +:+ "%".
Proof.
  apply (chart_arrays_nonempty sample_token history_server sample_draws sample_str
           (fun _ => Err ValueError) sample_template initial_world
           (sample_object [("id", JInt 44); ("updated_at", JStr "2024-01-04T21:30:00Z")])
           [sample_object [("id", JInt 43); ("updated_at", JStr "2024-01-03T12:00:00Z")];
            sample_object [("id", JInt 42); ("updated_at", JStr "2024-01-02T03:04:05Z")]]
           [JInt 44; JInt 43; JInt 42] (JInt 44)
           sample_jobs
           [sample_object [("web_url", JStr "https://git.esss.dk/j/1");
                           ("status", JStr "failed");
                           ("name", JStr "unit"); ("stage", JStr "test")];
            sample_object [("web_url", JStr "https://git.esss.dk/j/2");
                           ("status", JStr "success");
                           ("name", JStr "build"); ("stage", JStr "build")];
            sample_object [("web_url", JStr "https://git.esss.dk/j/3");
                           ("status", JStr "running");
                           ("name", JStr "deploy"); ("stage", JStr "deploy")]]
           (history_report 8 1 0) (JArr []) []
           "January 04, 2024 09:30 PM UTC"
           (fun args => Ok (ra_failed_job_percentage args +:+ " "
                            +:+ ra_pipeline_end_time args))).
  - eexists. split; [vm_compute; reflexivity |]. split; reflexivity.
  - reflexivity.
  - reflexivity.
  - eexists. split; [vm_compute; reflexivity |]. split; reflexivity.
  - reflexivity.
  - repeat constructor;
      (eexists; eexists; eexists; eexists; repeat split; reflexivity).
  - intros i pid Hi.
    destruct i as [|[|[|i]]]; try discriminate Hi; inversion Hi; subst pid.
    + exists (history_report 8 1 0). eexists.
      split; [| vm_compute; reflexivity].
      eexists. split; [vm_compute; reflexivity |]. split; reflexivity.
    + exists (history_report 10 2 1). eexists.
      split; [| vm_compute; reflexivity].
      eexists. split; [vm_compute; reflexivity |]. split; reflexivity.
    + exists (history_report 5 0 2). eexists.
      split; [| vm_compute; reflexivity].
      eexists. split; [vm_compute; reflexivity |]. split; reflexivity.
  - eexists. split; [vm_compute; reflexivity |]. split; reflexivity.
  - reflexivity.
  - reflexivity.
  - constructor.
  - vm_compute. reflexivity.
  - reflexivity.
  - intros args. eexists. reflexivity.
Defined.

(** ** The further statements on the sample run *)



Lemma output_all_or_nothing_witness :
  (exists L template,
     sample_completed L (snd (sample_main 200 initial_world))
     /\ sample_template "dashboard.html" = Ok template
     /\ template (l_args L) = Ok (l_content L)
     /\ l_content L = "20.00% January 02, 2024 03:04 AM UTC"
     /\ w_files (snd (sample_main 200 initial_world))
        = <["render/rendered.html" := l_content L]> (w_files initial_world))
  /\ w_files (snd (sample_main 404 initial_world)) = w_files initial_world.
Proof.
  split.
  - destruct (output_all_or_nothing sample_token (sample_server 200) sample_draws
                sample_str (fun _ => Err ValueError) sample_template initial_world
                (Ok tt) (snd (sample_main 200 initial_world)))
      as (L & template & HL & Htemplate & Hcontent & Hfiles).
    { vm_compute. reflexivity. }
    destruct (sample_locals L _ HL) as (_ & _ & Htext).
    exists L, template. auto.
  - apply (output_all_or_nothing sample_token (sample_server 404) sample_draws
             sample_str (fun _ => Err ValueError) sample_template initial_world
             (Err HTTPError)).
    vm_compute. reflexivity.
Defined.

Lemma every_job_displayed_once_witness :
  exists L objs,
    sample_completed L (snd (sample_main 200 initial_world))
    /\ Forall2 job_of (l_jobs L) objs
    /\ Permutation objs (ra_gitlab_tests (l_args L))
    /\ List.length (ra_gitlab_tests (l_args L)) = List.length (l_jobs L)
    /\ ra_failed_tests (l_args L) = List.filter is_failed objs.
Proof.
  apply every_job_displayed_once. vm_compute. reflexivity.
Defined.

Lemma team_labels_from_TEAMS_witness :
  exists L,
    sample_completed L (snd (sample_main 200 initial_world))
    /\ Forall (fun obj => team_label (teams obj)) (ra_gitlab_tests (l_args L))
    /\ w_draws (snd (sample_main 200 initial_world))
       = (w_draws initial_world + 2 * List.length (l_jobs L))%nat.
Proof.
  apply team_labels_from_TEAMS. vm_compute. reflexivity.
Defined.

Lemma displayed_percentage_is_latest_witness :
  exists L t,
    sample_completed L (snd (sample_main 200 initial_world))
    /\ head (l_tuples L) = Some t
    /\ tuple_for sample_token (sample_server 200) sample_str (l_pipeline_id L) t
    /\ last (rev (l_tuples L)) = Some t
    /\ ra_failed_job_percentage (l_args L) = format_2f (tuple_2 t) +:+ "%".
Proof.
  apply displayed_percentage_is_latest. vm_compute. reflexivity.
Defined.

Lemma skipped_table_in_report_order_witness :
  exists L ess,
    sample_completed L (snd (sample_main 200 initial_world))
    /\ Forall2 (suite_entries sample_str (l_pipeline_id L)) (l_test_suites L) ess
    /\ ra_skipped_test_suites (l_args L) = concat ess.
Proof.
  apply skipped_table_in_report_order. vm_compute. reflexivity.
Defined.


Lemma deep_link_of_safe_name_witness :
  job_name_url sample_str (JInt 42) (JStr "tests/test_io.py")
  = Ok ("https://git.esss.dk/dmsc-nightly/dmsc-nightly/-/pipelines/42"
        +:+ "/test_report?job_name=tests/test_io.py").
Proof.
  apply (deep_link_of_safe_name sample_str (JInt 42) "tests/test_io.py").
  vm_compute. repeat constructor.
Defined.


Lemma percentage_extremes_witness :
  failed_percentage (JInt 0) (JInt 7) = Ok (S754_zero false)
  /\ format_2f (S754_zero false) +:+ "%" = "0.00%"
  /\ failed_percentage (JInt 7) (JInt 7)
     = Ok (S754_finite false 7036874417766400 (-46))
  /\ format_2f (S754_finite false 7036874417766400 (-46)) +:+ "%" = "100.00%".
Proof.
  apply (percentage_extremes 7). reflexivity.
Defined.

Lemma log_of_completed_run_witness :
  exists L,
    sample_completed L (snd (sample_main 200 initial_world))
    /\ w_log (snd (sample_main 200 initial_world))
       = w_log initial_world
         ++ ["Fetching pipelines from URL: "
             +:+ req_url (pipelines_request sample_token)]
         ++ (job_line sample_str <$> ra_gitlab_tests (l_args L))
         ++ ["... wrote render/rendered.html"].
Proof.
  apply log_of_completed_run. vm_compute. reflexivity.
Defined.

Lemma get_pipelines_returns_iff_witness :
  exists w',
    get_pipelines sample_token (sample_server 200) DMSC_NIGHTLY_PROJECT_ID
                  initial_world
    = (Ok (JObj sample_pipeline, [JInt 42]), w').
Proof.
  apply get_pipelines_returns_iff. exists [].
  split; [| reflexivity].
  exists {| status_code := 200; body := Some sample_pipelines |}.
  split; [reflexivity |]. split; reflexivity.
Defined.

Lemma job_loop_finishes_iff_witness :
  Forall job_ok
    [sample_object [("web_url", JStr "https://git.esss.dk/j/1");
                    ("status", JStr "failed");
                    ("name", JStr "unit"); ("stage", JStr "test")]].
Proof.
  apply (job_loop_finishes_iff sample_draws _
           {| success := []; failed := []; others := [] |} initial_world).
  eexists. eexists. vm_compute. reflexivity.
Defined.

Lemma skipped_loops_finish_only_if_witness :
  Forall suite_ok
    [sample_object
       [("name", JStr "A B");
        ("test_cases",
         JArr [sample_object [("status", JStr "skipped");
                              ("classname", JStr "TestKafka");
                              ("name", JStr "test_produce")];
               sample_object [("status", JStr "success")]])]].
Proof.
  apply (skipped_loops_finish_only_if sample_str (JInt 42) _ []
           [(JStr "TestKafka", JStr "test_produce",
             "https://git.esss.dk/dmsc-nightly/dmsc-nightly/-/pipelines/42"
             +:+ "/test_report?job_name=A%20B")]).
  vm_compute. reflexivity.
Defined.
